(** * nbconvert.preprocessors.tagremove: TagRemovePreprocessor

    A shallow embedding of [src/nbconvert/preprocessors/tagremove.py]
    and the properties of its tag filter.

    Python objects that the code mutates in place (the notebook cells)
    live in an object store; every function that touches a cell threads
    that store and may raise, exactly where the Python code may raise. *)

From Stdlib Require Import ZArith.
From stdpp Require Import base option list strings gmap.

Open Scope string_scope.

(** ** Python values, exceptions *)

(** The JSON values a notebook node can hold under a key. *)
#[warnings="-register-all"]
Inductive json : Type :=
  | JNull
  | JBool (b : bool)
  | JNum (z : Z)
  | JStr (s : string)
  | JArr (l : list json)
  | JObj (l : list (string * json)).

(** The exceptions this module can raise. *)
Inductive exn : Type :=
  | AttributeError (attr : string)
  | TypeError (msg : string).

(** A computation that reads only: it returns or raises. *)
Definition res (A : Type) : Type := exn + A.

Definition raise {A} (e : exn) : res A := inl e.

#[global] Instance exn_eq_dec : EqDecision exn.
Proof. solve_decision. Defined.

#[global] Instance res_eq_dec `{EqDecision A} : EqDecision (res A).
Proof. unfold res. apply _. Defined.

#[global] Instance res_ret : MRet res := λ A x, inr x.
#[global] Instance res_bind : MBind res := λ A B f m,
  match m with
  | inl e => inl e
  | inr x => f x
  end.

(** [x == tag] for a string [tag]: only an equal string compares equal. *)
Definition json_eq_str (tag : string) (x : json) : bool :=
  match x with
  | JStr s => String.eqb s tag
  | _ => false
  end.

(** [p in s] on two strings is the substring test. *)
Fixpoint is_substring (p s : string) : bool :=
  match s with
  | EmptyString => String.prefix p EmptyString
  | String _ s' => String.prefix p s || is_substring p s'
  end.

(** [tag in container]: membership in a list, substring of a string, key of
    a mapping; the other values are not iterable. *)
Definition py_in (tag : string) (container : json) : res bool :=
  match container with
  | JArr l => mret (existsb (json_eq_str tag) l)
  | JStr s => mret (is_substring tag s)
  | JObj kvs => mret (existsb (λ kv, String.eqb kv.1 tag) kvs)
  | JNull | JBool _ | JNum _ =>
      raise (TypeError "argument is not iterable")
  end.

(** The builtin [any] on a list of booleans that is already built. *)
Definition any (bs : list bool) : bool := existsb id bs.

(** ** Notebook nodes *)

(** An output node.  [output_metadata] is the node's ['metadata'] key,
    which stream and error outputs do not have. *)
Record Output : Type := mkOutput {
  output_type : string;
  output_metadata : option (gmap string json);
  output_content : json;
}.

(** A cell node: each field is a key of the node, [None] when the key is
    absent.  [tags] is the node's own top-level ['tags'] key;
    [metadata] is its ['metadata'] mapping. *)
Record Cell : Type := mkCell {
  cell_type : string;
  source : string;
  tags : option json;
  metadata : option (gmap string json);
  outputs : option (list Output);
  execution_count : option json;
}.

Definition set_outputs (outs : list Output) (c : Cell) : Cell :=
  mkCell (cell_type c) (source c) (tags c) (metadata c) (Some outs)
         (execution_count c).

Definition set_execution_count (v : json) (c : Cell) : Cell :=
  mkCell (cell_type c) (source c) (tags c) (metadata c) (outputs c) (Some v).

(** [cell.metadata.pop(field, None)] on a cell that has a metadata
    mapping. *)
Definition metadata_pop (field : string) (c : Cell) : Cell :=
  mkCell (cell_type c) (source c) (tags c) (delete field <$> metadata c)
         (outputs c) (execution_count c).

(** Attribute access on a node: [node.name] raises when the key is absent. *)
Definition node_getattr {A} (name : string) (field : option A) : res A :=
  match field with
  | Some v => mret v
  | None => raise (AttributeError name)
  end.

(** Cells are objects: a notebook holds references to them. *)
Definition loc : Type := nat.

Record Notebook : Type := mkNotebook {
  cells : list loc;
  nb_metadata : gmap string json;
}.

Definition set_cells (cs : list loc) (nb : Notebook) : Notebook :=
  mkNotebook cs (nb_metadata nb).

Definition Resources : Type := gmap string json.

(** ** The object store and the monad of cell-mutating code *)

(** The store maps every reference to the cell object it designates.  A
    cell owns its metadata mapping and its list of outputs, as in a
    notebook read from a file.  Code in [M] reads and writes the store and
    may raise; what it wrote before raising stays written. *)

Definition heap : Type := loc → Cell.

Definition M (A : Type) : Type := heap → heap * res A.

#[global] Instance M_ret : MRet M := λ A x h, (h, inr x).
#[global] Instance M_bind : MBind M := λ A B f m h,
  match m h with
  | (h', inl e) => (h', inl e)
  | (h', inr x) => f x h'
  end.

Definition lift {A} (r : res A) : M A := λ h, (h, r).

Definition deref (l : loc) : M Cell := λ h, (h, inr (h l)).

Definition update (l : loc) (f : Cell → Cell) : M unit :=
  λ h, (λ l', if decide (l' = l) then f (h l') else h l', inr tt).

(** ** The preprocessor object *)

(** The three traits the class declares, the [remove_metadata_fields]
    trait it inherits from [ClearOutputPreprocessor], and whatever further
    attributes the instance has. *)
Record TagRemovePreprocessor : Type := mkTagRemovePreprocessor {
  remove_cell_tags : list string;
  remove_all_output_tags : list string;
  remove_single_output_tags : list string;
  remove_metadata_fields : list string;
  other_attributes : gmap string (list string);
}.

(** [self.name] *)
Definition getattr (self : TagRemovePreprocessor) (name : string)
  : res (list string) :=
  if String.eqb name "remove_cell_tags" then mret (remove_cell_tags self)
  else if String.eqb name "remove_all_output_tags"
       then mret (remove_all_output_tags self)
  else if String.eqb name "remove_single_output_tags"
       then mret (remove_single_output_tags self)
  else if String.eqb name "remove_metadata_fields"
       then mret (remove_metadata_fields self)
  else match other_attributes self !! name with
       | Some v => mret v
       | None => raise (AttributeError name)
       end.

(** Truth value of a list. *)
Definition truthy {A} (l : list A) : bool :=
  match l with
  | [] => false
  | _ :: _ => true
  end.

(** ** The methods of [TagRemovePreprocessor] *)

Section methods.

(** The receiver of every method. *)
Variable self : TagRemovePreprocessor.

Definition check_cell_conditions (cell : Cell) (resources : Resources)
    (index : nat) : res bool :=
  remove_tags ← getattr self "cell_remove_tags";
  found ← mapM (λ tag, py_in tag (default (JArr []) (tags cell))) remove_tags;
  mret (negb (any found)).

Definition check_output_conditions (output : Output) (resources : Resources)
    (cell_index output_index : nat) : res bool :=
  remove_tags ← getattr self "remove_single_output_tags";
  found ← mapM (λ tag,
             md ← node_getattr "metadata" (output_metadata output);
             py_in tag (default (JArr []) (md !! "tags")))
           remove_tags;
  mret (negb (any found)).

Definition preprocess_output (output : Output) (resources : Resources)
    (cell_index output_index : nat) : Output * Resources :=
  (output, resources).

(** The list comprehension over [enumerate(cell.outputs)]. *)
Fixpoint filter_outputs (outs : list Output) (resources : Resources)
    (cell_index output_index : nat) : res (list Output) :=
  match outs with
  | [] => mret []
  | output :: rest =>
      keep ← check_output_conditions output resources
               cell_index output_index;
      if keep : bool then
        kept ← filter_outputs rest resources cell_index (S output_index);
        mret ((preprocess_output output resources
                 cell_index output_index).1 :: kept)
      else filter_outputs rest resources cell_index (S output_index)
  end.

(** The test of the first [if] of [preprocess_cell]. *)
Definition has_output_remove_tag (cell : Cell) : res bool :=
  remove_tags ← getattr self "output_remove_tags";
  found ← mapM (λ tag, py_in tag (default (JArr []) (tags cell))) remove_tags;
  mret (any found).

(** [for field in self.remove_metadata_fields:
        cell.metadata.pop(field, None)] *)
Fixpoint pop_fields (cell : loc) (fields : list string) : M unit :=
  match fields with
  | [] => mret tt
  | field :: rest => _ ← update cell (metadata_pop field); pop_fields cell rest
  end.

Definition preprocess_cell (cell : loc) (resources : Resources)
    (cell_index : nat) : M (loc * Resources) :=
  c ← deref cell;
  clear ← lift (has_output_remove_tag c);
  _ ← (if clear : bool then
         _ ← update cell (set_outputs []);
         _ ← update cell (set_execution_count JNull);
         c ← deref cell;
         if metadata c is Some _ then
           fields ← lift (getattr self "remove_metadata_fields");
           pop_fields cell fields
         else mret tt
       else mret tt);
  c ← deref cell;
  outs ← lift (node_getattr "outputs" (outputs c));
  _ ← (if truthy outs then
         kept ← lift (filter_outputs outs resources cell_index 0);
         update cell (set_outputs kept)
       else mret tt);
  mret (cell, resources).

(** The list comprehension over [enumerate(nb.cells)]. *)
Fixpoint filter_cells (cs : list loc) (resources : Resources) (index : nat)
  : M (list loc) :=
  match cs with
  | [] => mret []
  | cell :: rest =>
      c ← deref cell;
      keep ← lift (check_cell_conditions c resources index);
      if keep : bool then
        r ← preprocess_cell cell resources index;
        kept ← filter_cells rest resources (S index);
        mret (r.1 :: kept)
      else filter_cells rest resources (S index)
  end.

(** [not (self.cell_remove_tags or self.output_remove_tags)] *)
Definition patterns_empty : res bool :=
  a ← getattr self "cell_remove_tags";
  if truthy a then mret false
  else b ← getattr self "output_remove_tags"; mret (negb (truthy b)).

Definition preprocess (nb : Notebook) (resources : Resources)
  : M (Notebook * Resources) :=
  skip ← lift patterns_empty;
  if skip : bool then mret (nb, resources)
  else
    kept ← filter_cells (cells nb) resources 0;
    mret (set_cells kept nb, resources).

End methods.

(** ** Vocabulary of the statements *)

(** A node whose tags entry [v] is a list holding the string [t]. *)
Definition has_tag (v : option json) (t : string) : Prop :=
  ∃ l, v = Some (JArr l) ∧ JStr t ∈ l.

(** A tags entry carries one of the tags [ts]. *)
Definition carries (v : option json) (ts : list string) : Prop :=
  ∃ t, t ∈ ts ∧ has_tag v t.

(** A tags entry is absent or a list: the shape the notebook format gives
    it. *)
Definition tag_list (v : option json) : option (list json) :=
  match v with
  | None => Some []
  | Some (JArr l) => Some l
  | Some _ => None
  end.

(** The metadata mapping once every listed field has been popped. *)
Definition strip (fields : list string) (md : gmap string json)
  : gmap string json :=
  foldl (λ m field, delete field m) md fields.

(** The cell that the output-clearing branch leaves behind. *)
Definition cleared (fields : list string) (c : Cell) : Cell :=
  mkCell (cell_type c) (source c) (tags c) (strip fields <$> metadata c)
         (Some []) (Some JNull).

(** [c'] has the outputs of [c], or some of them in their order. *)
Definition outputs_thinned (c c' : Cell) : Prop :=
  outputs c' = outputs c ∨
  ∃ outs outs', outputs c = Some outs ∧ outputs c' = Some outs' ∧
                outs' `sublist_of` outs.

(** What a run of the filter may do to one cell object: drop some of its
    outputs, or, when the clearing test of [preprocess_cell] holds for
    it, clear outputs, execution counter and the listed metadata fields.
    Type, source and tags stay. *)
Definition cell_frame (self : TagRemovePreprocessor) (c c' : Cell) : Prop :=
  cell_type c' = cell_type c ∧ source c' = source c ∧ tags c' = tags c ∧
  ((metadata c' = metadata c ∧ execution_count c' = execution_count c ∧
    outputs_thinned c c')
   ∨ (has_output_remove_tag self c = inr true ∧
      outputs c' = Some [] ∧ execution_count c' = Some JNull ∧
      metadata c' = strip (remove_metadata_fields self) <$> metadata c)).

(** The instance with other values under two of the declared traits. *)
Definition with_declared (rc ra : list string)
    (self : TagRemovePreprocessor) : TagRemovePreprocessor :=
  mkTagRemovePreprocessor rc ra (remove_single_output_tags self)
    (remove_metadata_fields self) (other_attributes self).

(** The instance with another value under [remove_single_output_tags]. *)
Definition with_single (rs : list string)
    (self : TagRemovePreprocessor) : TagRemovePreprocessor :=
  mkTagRemovePreprocessor (remove_cell_tags self) (remove_all_output_tags self)
    rs (remove_metadata_fields self) (other_attributes self).

(** The cell with another ['metadata'] key. *)
Definition set_metadata (md : option (gmap string json)) (c : Cell) : Cell :=
  mkCell (cell_type c) (source c) (tags c) md (outputs c) (execution_count c).

(** The boolean form of [carries]. *)
Definition carriesb (v : option json) (ts : list string) : bool :=
  match v with
  | Some (JArr l) => existsb (λ t, existsb (json_eq_str t) l) ts
  | _ => false
  end.

(** The ['tags'] entry of an output's metadata, when there is one. *)
Definition output_tags (o : Output) : option json :=
  md ← output_metadata o; md !! "tags".

(** An output as the notebook format shapes a rich output: it has a
    metadata mapping, whose tags entry is absent or a list. *)
Definition output_shaped (o : Output) : Prop :=
  ∃ md l, output_metadata o = Some md ∧ tag_list (md !! "tags") = Some l.

(** A cell with a list of shaped outputs, whose own tags entry is absent
    or a list. *)
Definition cell_shaped (c : Cell) : Prop :=
  is_Some (tag_list (tags c)) ∧
  ∃ outs, outputs c = Some outs ∧ Forall output_shaped outs.

(** The outputs that carry none of the tags [rs]. *)
Definition untagged_outputs (rs : list string) (outs : list Output)
  : list Output :=
  filter (λ o, carriesb (output_tags o) rs = false) outs.

(** What a kept cell is expected to become: cleared when its own tags
    carry one of [ra], else with the outputs tagged in [rs] dropped. *)
Definition processed (ra rs fields : list string) (c : Cell) : Cell :=
  if carriesb (tags c) ra then cleared fields c
  else match outputs c with
       | Some outs => set_outputs (untagged_outputs rs outs) c
       | None => c
       end.

(** An instance that has the attribute [cell_remove_tags] only. *)
Definition half_patched (rc : list string) : TagRemovePreprocessor :=
  mkTagRemovePreprocessor rc [] [] ["collapsed"; "scrolled"]
    {[ "cell_remove_tags" := rc ]}.

(** The values that [in] cannot search. *)
Definition not_iterable (v : json) : bool :=
  match v with
  | JNull | JBool _ | JNum _ => true
  | JStr _ | JArr _ | JObj _ => false
  end.

(** [p] occurs in [s]. *)
Definition occurs_in (p s : string) : Prop :=
  ∃ a b, s = a +:+ p +:+ b.

(** ** Sample notebooks and instances *)

Module Scenario.

(** A metadata mapping whose ['tags'] entry lists [ts]. *)
Definition tagged (ts : list string) : gmap string json :=
  {[ "tags" := JArr (JStr <$> ts) ]}.

Definition plain_output : Output :=
  mkOutput "execute_result" (Some (tagged [])) (JStr "2").

Definition hidden_output : Output :=
  mkOutput "display_data" (Some (tagged ["hide"])) (JStr "figure").

(** A stream output has no ['metadata'] key. *)
Definition stream_output : Output :=
  mkOutput "stream" None (JStr "hello").

(** A code cell that lists [ts] both under its own ['tags'] key and under
    the ['tags'] entry of its metadata. *)
Definition code_cell (ts : list string) (outs : list Output) : Cell :=
  mkCell "code" "1+1" (Some (JArr (JStr <$> ts))) (Some (tagged ts))
         (Some outs) (Some (JNum 3)).

(** A code cell as the notebook format stores it: its tags are an entry of
    its metadata, and it has no ['tags'] key of its own. *)
Definition nbformat_cell (ts : list string) (outs : list Output) : Cell :=
  mkCell "code" "1+1" None (Some (tagged ts)) (Some outs) (Some (JNum 3)).

(** A markdown cell has neither outputs nor an execution counter. *)
Definition markdown_cell : Cell :=
  mkCell "markdown" "# Title" None (Some ∅) None None.

(** The cell of the output-clearing scenario. *)
Definition collapsed_cell : Cell :=
  mkCell "code" "1+1" (Some (JArr [JStr "clear"]))
         (Some {[ "collapsed" := JBool true ]})
         (Some [plain_output]) (Some (JNum 3)).

(** A removed cell, a cell to clear and a cell with an output to drop. *)
Definition mixed_cells : list Cell :=
  [code_cell ["remove"] [plain_output];
   collapsed_cell;
   code_cell [] [hidden_output; plain_output]].

(** The store that holds [cs] at the references 0, 1, ... *)
Definition store_of (cs : list Cell) : heap :=
  λ l, default markdown_cell (cs !! l).

Definition notebook_of (cs : list Cell) : Notebook :=
  mkNotebook (seq 0 (length cs)) ∅.

(** An instance configured through its declared traits only. *)
Definition configured (rc ra rs : list string) : TagRemovePreprocessor :=
  mkTagRemovePreprocessor rc ra rs ["collapsed"; "scrolled"] ∅.

(** An instance that, besides, has been given the two attributes that the
    methods look up. *)
Definition patched (rc ra rs : list string) : TagRemovePreprocessor :=
  mkTagRemovePreprocessor rc ra rs ["collapsed"; "scrolled"]
    (<["cell_remove_tags" := rc]> (<["output_remove_tags" := ra]> ∅)).

End Scenario.

(** Reading the store at the reference that was just written. *)
Ltac decide_same :=
  repeat match goal with
         | |- context [decide (?l = ?l)] =>
             destruct (decide (l = l)) as [_|?]; [|done]
         end.

Ltac unfold_monad :=
  unfold mbind, mret, M_bind, M_ret, res_bind, res_ret, lift, deref, raise
    in *.

(** ** Attribute lookup *)

Lemma getattr_cell_remove_tags self :
  getattr self "cell_remove_tags" =
  match other_attributes self !! "cell_remove_tags" with
  | Some v => inr v
  | None => inl (AttributeError "cell_remove_tags")
  end.
Proof. reflexivity. Qed.

Lemma getattr_output_remove_tags self :
  getattr self "output_remove_tags" =
  match other_attributes self !! "output_remove_tags" with
  | Some v => inr v
  | None => inl (AttributeError "output_remove_tags")
  end.
Proof. reflexivity. Qed.

Lemma getattr_remove_single_output_tags self :
  getattr self "remove_single_output_tags" =
  inr (remove_single_output_tags self).
Proof. reflexivity. Qed.

Lemma getattr_remove_metadata_fields self :
  getattr self "remove_metadata_fields" = inr (remove_metadata_fields self).
Proof. reflexivity. Qed.

(** ** The tag tests *)

Lemma mapM_py_in_arr (l : list json) (ts : list string) :
  mapM (λ tag, py_in tag (JArr l)) ts =
  inr ((λ tag, existsb (json_eq_str tag) l) <$> ts).
Proof.
  induction ts as [|t ts IH]; [done|].
  cbn [mapM]. cbn [mapM] in IH. rewrite IH. reflexivity.
Qed.

Lemma json_eq_str_true tag x : json_eq_str tag x = true ↔ x = JStr tag.
Proof.
  destruct x as [| | |s| |]; cbn [json_eq_str].
  4: { rewrite String.eqb_eq. split; [intros ->|intros [=]]; done. }
  all: split; discriminate.
Qed.

Lemma existsb_json_eq_str tag l :
  existsb (json_eq_str tag) l = true ↔ JStr tag ∈ l.
Proof.
  rewrite existsb_exists. split.
  - intros (x & Hin & Hx). apply json_eq_str_true in Hx as ->.
    by apply list_elem_of_In.
  - intros Hin. exists (JStr tag).
    split; [by apply list_elem_of_In|by apply json_eq_str_true].
Qed.

Lemma any_fmap_true {A} (f : A → bool) (ts : list A) :
  any (f <$> ts) = true ↔ ∃ t, t ∈ ts ∧ f t = true.
Proof.
  unfold any. rewrite existsb_exists. split.
  - intros (b & Hin & Hb). apply list_elem_of_In, list_elem_of_fmap in Hin.
    destruct Hin as (t & -> & Ht). exists t. by rewrite <- Hb.
  - intros (t & Ht & Hf). exists (f t). split; [|done].
    apply list_elem_of_In, list_elem_of_fmap. eauto.
Qed.

(** On a tags entry that is absent or a list, the tests never raise and
    find exactly the listed tags. *)
Lemma mapM_py_in_tag_list v l ts :
  tag_list v = Some l →
  mapM (λ tag, py_in tag (default (JArr []) v)) ts =
  inr ((λ tag, existsb (json_eq_str tag) l) <$> ts).
Proof.
  intros Hv.
  destruct v as [[]|]; try discriminate Hv; injection Hv as <-;
    exact (mapM_py_in_arr _ ts).
Qed.

Lemma any_found_carries v l ts :
  tag_list v = Some l →
  any ((λ tag, existsb (json_eq_str tag) l) <$> ts) = true ↔ carries v ts.
Proof.
  intros Hv. rewrite any_fmap_true. unfold carries, has_tag.
  setoid_rewrite existsb_json_eq_str.
  destruct v as [[]|]; try discriminate Hv; injection Hv as <-.
  - split.
    + intros (t & Ht & Hin). exists t. split; [done|]. by eexists.
    + intros (t & Ht & l' & [= <-] & Hin). by exists t.
  - split.
    + intros (t & _ & Hin). by apply elem_of_nil in Hin.
    + intros (t & _ & l' & [=] & _).
Qed.

(** The two cell-level tests read the cell's own ['tags'] key only. *)
Lemma check_cell_conditions_tags self c c' r i r' i' :
  tags c' = tags c →
  check_cell_conditions self c' r' i' = check_cell_conditions self c r i.
Proof. intros Ht. unfold check_cell_conditions. by rewrite Ht. Qed.

Lemma has_output_remove_tag_tags self c c' :
  tags c' = tags c →
  has_output_remove_tag self c' = has_output_remove_tag self c.
Proof. intros Ht. unfold has_output_remove_tag. by rewrite Ht. Qed.

(** What the two tests return once the attribute they read exists and the
    tags entry is absent or a list. *)
Lemma check_cell_conditions_defined self c r i ts l :
  getattr self "cell_remove_tags" = inr ts →
  tag_list (tags c) = Some l →
  check_cell_conditions self c r i =
  inr (negb (any ((λ tag, existsb (json_eq_str tag) l) <$> ts))).
Proof.
  intros Hts Hl. unfold check_cell_conditions. rewrite Hts.
  cbn [mbind res_bind]. by rewrite (mapM_py_in_tag_list _ l).
Qed.

Lemma has_output_remove_tag_defined self c ts l :
  getattr self "output_remove_tags" = inr ts →
  tag_list (tags c) = Some l →
  has_output_remove_tag self c =
  inr (any ((λ tag, existsb (json_eq_str tag) l) <$> ts)).
Proof.
  intros Hts Hl. unfold has_output_remove_tag. rewrite Hts.
  cbn [mbind res_bind]. by rewrite (mapM_py_in_tag_list _ l).
Qed.

(** ** Popping metadata fields *)

Lemma strip_cons field fields md :
  strip (field :: fields) md = strip fields (delete field md).
Proof. reflexivity. Qed.

Lemma lookup_strip fields md k :
  strip fields md !! k = if decide (k ∈ fields) then None else md !! k.
Proof.
  revert md. induction fields as [|f fields IH]; intros md.
  - by rewrite decide_False by apply not_elem_of_nil.
  - rewrite strip_cons, IH. destruct (decide (k ∈ fields)) as [Hin|Hnin].
    + by rewrite decide_True by (by apply list_elem_of_further).
    + destruct (decide (k = f)) as [->|Hne].
      * rewrite lookup_delete_eq.
        by rewrite decide_True by apply list_elem_of_here.
      * rewrite lookup_delete_ne by done.
        rewrite decide_False; [done|].
        rewrite elem_of_cons. intros [?|?]; done.
Qed.

Lemma strip_idemp fields md : strip fields (strip fields md) = strip fields md.
Proof.
  apply map_eq. intros k. rewrite !lookup_strip.
  by destruct (decide (k ∈ fields)).
Qed.

Lemma strip_absent fields md field :
  field ∈ fields → strip fields md !! field = None.
Proof. intros Hin. rewrite lookup_strip. by rewrite decide_True. Qed.

Lemma pop_fields_cons cell field fields h :
  pop_fields cell (field :: fields) h =
  pop_fields cell fields
    (λ l, if decide (l = cell) then metadata_pop field (h l) else h l).
Proof. reflexivity. Qed.

Lemma pop_fields_spec cell fields h :
  (pop_fields cell fields h).2 = inr tt ∧
  (∀ l, l ≠ cell → (pop_fields cell fields h).1 l = h l) ∧
  (pop_fields cell fields h).1 cell =
    mkCell (cell_type (h cell)) (source (h cell)) (tags (h cell))
           (strip fields <$> metadata (h cell))
           (outputs (h cell)) (execution_count (h cell)).
Proof.
  revert h. induction fields as [|f fields IH]; intros h.
  - cbn. split_and!; [done..|]. destruct (h cell) as [? ? ? [md|] ? ?]; done.
  - rewrite pop_fields_cons.
    match goal with |- context [pop_fields cell fields ?h1] =>
      destruct (IH h1) as (Hr & Hother & Hcell) end.
    split_and!.
    + done.
    + intros l Hl. rewrite Hother by done. by rewrite decide_False.
    + rewrite Hcell. rewrite decide_True by done. cbn.
      destruct (metadata (h cell)); done.
Qed.

(** ** Filtering the outputs of one cell *)

Lemma filter_outputs_cons self output rest r ci oi :
  filter_outputs self (output :: rest) r ci oi =
  match check_output_conditions self output r ci oi with
  | inl e => inl e
  | inr true =>
      match filter_outputs self rest r ci (S oi) with
      | inl e => inl e
      | inr kept => inr (output :: kept)
      end
  | inr false => filter_outputs self rest r ci (S oi)
  end.
Proof.
  cbn [filter_outputs]. unfold_monad.
  destruct (check_output_conditions self output r ci oi) as [e|[|]]; try done.
Qed.

(** The outputs that are kept are outputs of the input, unchanged and in
    the input's order; each passed the test and each dropped one failed
    it. *)
Lemma filter_outputs_sublist self outs r ci oi kept :
  filter_outputs self outs r ci oi = inr kept → kept `sublist_of` outs.
Proof.
  revert oi kept. induction outs as [|o outs IH]; intros oi kept.
  - intros [= <-]. constructor.
  - rewrite filter_outputs_cons.
    destruct (check_output_conditions self o r ci oi) as [e|[|]]; [done|..].
    + destruct (filter_outputs self outs r ci (S oi)) as [e|kept'] eqn:Hk;
        [done|]. intros [= <-]. constructor. by eapply IH.
    + intros Hk. constructor. by eapply IH.
Qed.

Lemma filter_outputs_filter self outs r ci oi kept :
  filter_outputs self outs r ci oi = inr kept →
  kept = filter (λ o, check_output_conditions self o r ci 0 = inr true) outs.
Proof.
  revert oi kept. induction outs as [|o outs IH]; intros oi kept.
  - by intros [= <-].
  - rewrite filter_outputs_cons.
    change (check_output_conditions self o r ci oi)
      with (check_output_conditions self o r ci 0).
    destruct (check_output_conditions self o r ci 0) as [e|[|]] eqn:Hc;
      [done|..].
    + destruct (filter_outputs self outs r ci (S oi)) as [e|kept'] eqn:Hk;
        [done|]. intros [= <-].
      rewrite filter_cons_True by done. f_equal. by eapply IH.
    + intros Hk. rewrite filter_cons_False by (rewrite Hc; discriminate).
      by eapply IH.
Qed.

(** ** One call of [preprocess_cell] *)

Lemma preprocess_cell_outcome self cell r i h :
  match has_output_remove_tag self (h cell) with
  | inl e => preprocess_cell self cell r i h = (h, inl e)
  | inr true =>
      (preprocess_cell self cell r i h).2 = inr (cell, r) ∧
      (∀ l, l ≠ cell → (preprocess_cell self cell r i h).1 l = h l) ∧
      (preprocess_cell self cell r i h).1 cell =
        cleared (remove_metadata_fields self) (h cell)
  | inr false =>
      match outputs (h cell) with
      | None => preprocess_cell self cell r i h
                = (h, inl (AttributeError "outputs"))
      | Some [] => preprocess_cell self cell r i h = (h, inr (cell, r))
      | Some outs =>
          match filter_outputs self outs r i 0 with
          | inl e => preprocess_cell self cell r i h = (h, inl e)
          | inr kept =>
              (preprocess_cell self cell r i h).2 = inr (cell, r) ∧
              (∀ l, l ≠ cell → (preprocess_cell self cell r i h).1 l = h l) ∧
              (preprocess_cell self cell r i h).1 cell
                = set_outputs kept (h cell)
          end
      end
  end.
Proof.
  unfold preprocess_cell.
  cbv beta iota delta [mbind M_bind deref lift update mret M_ret].
  destruct (has_output_remove_tag self (h cell)) as [e|[|]]; [done|..].
  - (* the clearing branch *)
    destruct (decide (cell = cell)) as [_|?]; [|done].
    cbn [metadata set_execution_count set_outputs].
    destruct (metadata (h cell)) as [md|] eqn:Hmd.
    + rewrite getattr_remove_metadata_fields.
      match goal with |- context [pop_fields cell ?fs ?h1] =>
        destruct (pop_fields_spec cell fs h1) as (Hr & Hother & Hcell);
        destruct (pop_fields cell fs h1) as [h2 r2] end.
      cbn [fst snd] in *. subst r2.
      destruct (decide (cell = cell)) as [_|?]; [|done]. cbn in Hcell.
      rewrite Hcell. cbn. split_and!; [done| |].
      * intros l Hl. rewrite Hother by done. by rewrite !decide_False.
      * rewrite Hcell. unfold cleared. by rewrite Hmd.
    + cbn beta iota. destruct (decide (cell = cell)) as [_|?]; [|done].
      cbn. split_and!; [done| |].
      * intros l Hl. by rewrite !decide_False.
      * decide_same. unfold cleared, set_execution_count, set_outputs.
        cbn. by rewrite Hmd.
  - (* the cell keeps its fields; its outputs are filtered *)
    destruct (outputs (h cell)) as [[|o outs]|]; [done| |done].
    cbn [node_getattr truthy mret res_ret].
    destruct (filter_outputs self (o :: outs) r i 0) as [e|kept]; [done|].
    cbn. split_and!; [done| |].
    + intros l Hl. by rewrite decide_False.
    + by rewrite decide_True.
Qed.

Lemma outputs_thinned_trans c1 c2 c3 :
  outputs_thinned c1 c2 → outputs_thinned c2 c3 → outputs_thinned c1 c3.
Proof.
  intros [H12|(o1 & o2 & Ho1 & Ho2 & Hs12)]
         [H23|(o2' & o3 & Ho2' & Ho3 & Hs23)].
  - left. congruence.
  - right. exists o2', o3. split_and!; [congruence|done..].
  - right. exists o1, o2. split_and!; [done|congruence|done].
  - right. exists o1, o3. split_and!; [done..|].
    assert (o2' = o2) as -> by congruence. by etrans.
Qed.

Lemma cell_frame_refl self c : cell_frame self c c.
Proof. split_and!; [done..|]. left. split_and!; [done..|]. by left. Qed.

Lemma cell_frame_trans self c1 c2 c3 :
  cell_frame self c1 c2 → cell_frame self c2 c3 → cell_frame self c1 c3.
Proof.
  intros (Hty12 & Hsrc12 & Htag12 & H12) (Hty23 & Hsrc23 & Htag23 & H23).
  split_and!; [congruence..|].
  destruct H12 as [(Hmd12 & Hec12 & Hout12)|(Hclr1 & Hout12 & Hec12 & Hmd12)];
    destruct H23 as [(Hmd23 & Hec23 & Hout23)|(Hclr2 & Hout23 & Hec23 & Hmd23)].
  - left. split_and!; [congruence..|]. by eapply outputs_thinned_trans.
  - right. rewrite (has_output_remove_tag_tags _ c1 c2) in Hclr2 by done.
    split_and!; [done..|]. by rewrite Hmd23, Hmd12.
  - right. split_and!; [done| |congruence..].
    destruct Hout23 as [->|(o2 & o3 & Ho2 & Ho3 & Hs)]; [done|].
    rewrite Ho3. f_equal. apply sublist_nil_r. congruence.
  - right. split_and!; [done..|].
    rewrite Hmd23, Hmd12. destruct (metadata c1) as [md|]; [|done].
    cbn. by rewrite strip_idemp.
Qed.

(** One call of [preprocess_cell] touches the store at its cell only, and
    there within [cell_frame]; when it returns, it returns its cell. *)
Lemma preprocess_cell_frame self cell r i h :
  (∀ l, l ≠ cell → (preprocess_cell self cell r i h).1 l = h l) ∧
  cell_frame self (h cell) ((preprocess_cell self cell r i h).1 cell) ∧
  (∀ x, (preprocess_cell self cell r i h).2 = inr x → x = (cell, r)).
Proof.
  pose proof (preprocess_cell_outcome self cell r i h) as H.
  destruct (has_output_remove_tag self (h cell)) as [e|[|]] eqn:Hclear.
  - rewrite H. cbn. split_and!; [done|apply cell_frame_refl|done].
  - destruct H as (Hr & Hother & Hcell). split_and!; [done| |].
    + rewrite Hcell. split_and!; [done..|]. right. by split_and!.
    + intros x. rewrite Hr. by intros [= <-].
  - destruct (outputs (h cell)) as [[|o outs]|] eqn:Houts.
    + rewrite H. cbn. split_and!; [done|apply cell_frame_refl|].
      by intros x [= <-].
    + destruct (filter_outputs self (o :: outs) r i 0) as [e|kept] eqn:Hk.
      * rewrite H. cbn. split_and!; [done|apply cell_frame_refl|done].
      * destruct H as (Hr & Hother & Hcell). split_and!; [done| |].
        -- rewrite Hcell. split_and!; [done..|]. left. split_and!; [done..|].
           right. exists (o :: outs), kept. split_and!; [done..|].
           by eapply filter_outputs_sublist.
        -- intros x. rewrite Hr. by intros [= <-].
    + rewrite H. cbn. split_and!; [done|apply cell_frame_refl|done].
Qed.

(** ** The pass over the cells *)

Lemma filter_cells_cons self cell rest r i h :
  filter_cells self (cell :: rest) r i h =
  match check_cell_conditions self (h cell) r i with
  | inl e => (h, inl e)
  | inr true =>
      match preprocess_cell self cell r i h with
      | (h1, inl e) => (h1, inl e)
      | (h1, inr x) =>
          match filter_cells self rest r (S i) h1 with
          | (h2, inl e) => (h2, inl e)
          | (h2, inr kept) => (h2, inr (x.1 :: kept))
          end
      end
  | inr false => filter_cells self rest r (S i) h
  end.
Proof.
  cbn [filter_cells].
  cbv beta iota delta [mbind M_bind deref lift mret M_ret].
  destruct (check_cell_conditions self (h cell) r i) as [e|[|]]; done.
Qed.

Lemma filter_cells_frame self cs r i h :
  (∀ l, cell_frame self (h l) ((filter_cells self cs r i h).1 l)) ∧
  (∀ l, l ∉ cs → (filter_cells self cs r i h).1 l = h l) ∧
  (∀ kept, (filter_cells self cs r i h).2 = inr kept → kept `sublist_of` cs).
Proof.
  revert i h. induction cs as [|cell rest IH]; intros i h.
  - cbn. split_and!; [intros; apply cell_frame_refl|done|].
    intros kept [= <-]. constructor.
  - rewrite filter_cells_cons.
    destruct (check_cell_conditions self (h cell) r i) as [e|[|]].
    + cbn. split_and!; [intros; apply cell_frame_refl|done..].
    + destruct (preprocess_cell_frame self cell r i h)
        as (Hother & Hcell & Hret).
      destruct (preprocess_cell self cell r i h) as [h1 [e|x]]; cbn in *.
      * split_and!; [|intros l [? ?]%not_elem_of_cons; by apply Hother|done].
        intros l. destruct (decide (l = cell)) as [->|Hne]; [done|].
        rewrite Hother by done. apply cell_frame_refl.
      * destruct (IH (S i) h1) as (Hfr & Hout & Hkept).
        rewrite (Hret x eq_refl).
        assert (∀ l, cell_frame self (h l) (h1 l)) as Hfr1.
        { intros l. destruct (decide (l = cell)) as [->|Hne]; [done|].
          rewrite Hother by done. apply cell_frame_refl. }
        destruct (filter_cells self rest r (S i) h1) as [h2 [e|kept]];
          cbn in *.
        -- split_and!; [|intros l [? ?]%not_elem_of_cons|done].
           ++ intros l. by eapply cell_frame_trans.
           ++ rewrite Hout by done. by apply Hother.
        -- split_and!; [|intros l [? ?]%not_elem_of_cons|].
           ++ intros l. by eapply cell_frame_trans.
           ++ rewrite Hout by done. by apply Hother.
           ++ intros kept' [= <-]. constructor. by apply Hkept.
    + destruct (IH (S i) h) as (Hfr & Hout & Hkept).
      split_and!; [done| |].
      * intros l [? ?]%not_elem_of_cons. by apply Hout.
      * intros kept Hk. constructor. by apply Hkept.
Qed.

(** A cell that fails [check_cell_conditions] is skipped by the pass: the
    store keeps it as it was and the result does not list it. *)
Lemma dropped_cell_untouched self cs r i h l :
  check_cell_conditions self (h l) r i = inr false →
  (filter_cells self cs r i h).1 l = h l ∧
  (∀ kept, (filter_cells self cs r i h).2 = inr kept → l ∉ kept).
Proof.
  revert i h. induction cs as [|cell rest IH]; intros i h Hl.
  - cbn. split; [done|]. intros kept [= <-]. apply not_elem_of_nil.
  - rewrite filter_cells_cons.
    destruct (check_cell_conditions self (h cell) r i) as [e|[|]] eqn:Hc.
    + by cbn.
    + assert (l ≠ cell) as Hne by (intros ->; congruence).
      destruct (preprocess_cell_frame self cell r i h)
        as (Hother & _ & Hret).
      destruct (preprocess_cell self cell r i h) as [h1 [e|x]];
        cbn [fst snd] in *.
      * split; [by apply Hother|done].
      * rewrite (Hret x eq_refl).
        destruct (IH (S i) h1) as (Hsame & Hnot).
        { rewrite Hother by done. exact Hl. }
        destruct (filter_cells self rest r (S i) h1) as [h2 [e|kept]];
          cbn [fst snd] in *.
        -- split; [|done]. rewrite Hsame. by apply Hother.
        -- split; [rewrite Hsame; by apply Hother|].
           intros kept' [= <-]. rewrite not_elem_of_cons.
           split; [done|by apply Hnot].
    + by apply (IH (S i) h).
Qed.

(** A cell that [check_cell_conditions] does not reject is listed in the
    result, whenever the pass returns one. *)
Lemma filter_cells_keeps self cs r i h l kept :
  (filter_cells self cs r i h).2 = inr kept →
  l ∈ cs →
  check_cell_conditions self (h l) r i ≠ inr false →
  l ∈ kept.
Proof.
  revert i h kept. induction cs as [|cell rest IH]; intros i h kept.
  - intros _ Hin. by apply elem_of_nil in Hin.
  - rewrite filter_cells_cons. intros Hk Hin Hl.
    destruct (check_cell_conditions self (h cell) r i) as [e|[|]] eqn:Hc.
    + done.
    + destruct (preprocess_cell_frame self cell r i h)
        as (Hother & Hcell & Hret).
      destruct (preprocess_cell self cell r i h) as [h1 [e|x]];
        cbn [fst snd] in *; [done|].
      rewrite (Hret x eq_refl) in Hk. cbn [fst snd] in Hk.
      destruct (filter_cells self rest r (S i) h1) as [h2 [e|kept']] eqn:Hf;
        cbn [fst snd] in *; [done|].
      injection Hk as <-. apply elem_of_cons in Hin as [->|Hin].
      * apply list_elem_of_here.
      * apply list_elem_of_further. apply (IH (S i) h1); [by rewrite Hf|done|].
        rewrite (check_cell_conditions_tags self (h l) (h1 l) r i r (S i));
          [done|].
        destruct (decide (l = cell)) as [->|Hne]; [apply Hcell|].
        by rewrite Hother.
    + apply elem_of_cons in Hin as [->|Hin]; [congruence|].
      by apply (IH (S i) h).
Qed.

Lemma preprocess_skipped self nb r h :
  patterns_empty self = inr true → preprocess self nb r h = (h, inr (nb, r)).
Proof. intros Hskip. unfold preprocess. unfold_monad. by rewrite Hskip. Qed.

Lemma preprocess_frame self nb r h :
  (∀ l, cell_frame self (h l) ((preprocess self nb r h).1 l)) ∧
  (∀ l, l ∉ cells nb → (preprocess self nb r h).1 l = h l) ∧
  (∀ nb' r', (preprocess self nb r h).2 = inr (nb', r') →
     cells nb' `sublist_of` cells nb ∧ nb_metadata nb' = nb_metadata nb ∧
     r' = r).
Proof.
  unfold preprocess. cbv beta iota delta [mbind M_bind lift mret M_ret].
  destruct (patterns_empty self) as [e|[|]].
  - cbn. split_and!; [intros; apply cell_frame_refl|done..].
  - cbn. split_and!; [intros; apply cell_frame_refl|done|].
    by intros nb' r' [= <- <-].
  - destruct (filter_cells_frame self (cells nb) r 0 h) as (Hfr & Hout & Hk).
    destruct (filter_cells self (cells nb) r 0 h) as [h1 [e|kept]];
      cbn [fst snd] in *; [done|].
    split_and!; [done..|]. intros nb' r' [= <- <-]. cbn.
    by split_and!; [apply Hk|..].
Qed.

(** When the clearing test holds, the attribute it reads exists and the
    cell's own tags entry carries one of its tags. *)
Lemma has_output_remove_tag_carries self c l :
  tag_list (tags c) = Some l →
  has_output_remove_tag self c = inr true ↔
  ∃ ts, other_attributes self !! "output_remove_tags" = Some ts ∧
        carries (tags c) ts.
Proof.
  intros Hl. unfold has_output_remove_tag.
  rewrite getattr_output_remove_tags.
  destruct (other_attributes self !! "output_remove_tags") as [ts|].
  - cbn [mbind res_bind]. rewrite (mapM_py_in_tag_list _ l) by done.
    cbn [mbind res_bind mret res_ret].
    split.
    + intros [= Hany]. exists ts. split; [done|].
      by apply (any_found_carries (tags c) l ts).
    + intros (ts' & [= <-] & Hc).
      apply (any_found_carries (tags c) l ts) in Hc; [|done]. by rewrite Hc.
  - split; [done|]. by intros (ts & [=] & _).
Qed.

Lemma check_cell_conditions_carries self c r i ts :
  other_attributes self !! "cell_remove_tags" = Some ts →
  carries (tags c) ts →
  check_cell_conditions self c r i = inr false.
Proof.
  intros Hts Hc. pose proof Hc as (t & _ & l & Hl & _).
  rewrite (check_cell_conditions_defined self c r i ts l).
  - apply (any_found_carries (tags c) l ts) in Hc as ->; [done|].
    by rewrite Hl.
  - by rewrite getattr_cell_remove_tags, Hts.
  - by rewrite Hl.
Qed.

Lemma no_tags_not_rejected self c r i :
  tags c = None → check_cell_conditions self c r i ≠ inr false.
Proof.
  intros Ht. unfold check_cell_conditions.
  destruct (getattr self "cell_remove_tags") as [e|ts]; [done|].
  cbn [mbind res_bind]. rewrite (mapM_py_in_tag_list _ []) by by rewrite Ht.
  cbn [mbind res_bind mret res_ret]. intros [= Hany].
  apply negb_false_iff, any_fmap_true in Hany as (t & _ & Hany). done.
Qed.

Lemma no_tags_not_cleared self c :
  tags c = None → has_output_remove_tag self c ≠ inr true.
Proof.
  intros Ht Hc. apply (has_output_remove_tag_carries self c []) in Hc
    as (ts & _ & t & _ & l & Hl & _); [congruence|by rewrite Ht].
Qed.

Lemma check_output_conditions_defined self o r ci oi md l :
  output_metadata o = Some md →
  tag_list (md !! "tags") = Some l →
  check_output_conditions self o r ci oi =
  inr (negb (any ((λ tag, existsb (json_eq_str tag) l) <$>
                    remove_single_output_tags self))).
Proof.
  intros Hmd Hl. unfold check_output_conditions.
  rewrite getattr_remove_single_output_tags, Hmd. cbn [mbind res_bind].
  change (mapM _ (remove_single_output_tags self))
    with (mapM (λ tag, py_in tag (default (JArr []) (md !! "tags")))
               (remove_single_output_tags self)).
  by rewrite (mapM_py_in_tag_list _ l).
Qed.

(** Once the clearing test holds for a cell, [preprocess_cell] returns it
    with no outputs, a null execution counter and none of the listed
    fields in its metadata. *)
Lemma preprocess_cell_clears self cell r i h :
  has_output_remove_tag self (h cell) = inr true →
  (preprocess_cell self cell r i h).2 = inr (cell, r) ∧
  outputs ((preprocess_cell self cell r i h).1 cell) = Some [] ∧
  execution_count ((preprocess_cell self cell r i h).1 cell) = Some JNull ∧
  (∀ md field,
     metadata ((preprocess_cell self cell r i h).1 cell) = Some md →
     field ∈ remove_metadata_fields self → md !! field = None).
Proof.
  intros Hclear. pose proof (preprocess_cell_outcome self cell r i h) as H.
  rewrite Hclear in H. destruct H as (Hr & _ & Hcell).
  rewrite Hcell. split_and!; [done..|].
  intros md field Hmd Hfield. cbn in Hmd.
  destruct (metadata (h cell)) as [md0|]; [|done].
  injection Hmd as <-. by apply strip_absent.
Qed.

(** * The claims *)

Import Scenario.

(** C1 (cell removal by [remove_cell_tags]).  The claim is that a cell
    carrying a tag of the configured cell-removal set is absent from the
    result and the other cells appear in their order.  The code does not
    get there.  On the notebook of the first scenario, with
    [remove_cell_tags = ["remove"]], [preprocess] raises [AttributeError]
    for the attribute [cell_remove_tags] and filters nothing.  When the
    instance is given that attribute, a notebook with a markdown cell
    still raises ([cell.outputs] on a cell without outputs), and a cell
    whose tag is stored in its metadata, as the notebook format stores it,
    stays in the result. *)
Theorem remove_cell_tags_not_applied :
  (let cs := [code_cell [] [plain_output];
              code_cell ["remove"] [plain_output]] in
   preprocess (configured ["remove"] [] []) (notebook_of cs) ∅ (store_of cs)
   = (store_of cs, inl (AttributeError "cell_remove_tags"))) ∧
  (let cs := [markdown_cell; code_cell ["remove"] [plain_output]] in
   preprocess (patched ["remove"] [] []) (notebook_of cs) ∅ (store_of cs)
   = (store_of cs, inl (AttributeError "outputs"))) ∧
  (let cs := [nbformat_cell ["remove"] [plain_output]] in
   (preprocess (patched ["remove"] [] []) (notebook_of cs) ∅ (store_of cs)).2
   = inr (notebook_of cs, ∅)).
Proof. cbv zeta. split_and!; vm_compute; reflexivity. Qed.

(** C2 (output clearing by [remove_all_output_tags]).  The claim is that a
    surviving cell carrying a tag of the configured all-output set ends
    with no outputs, a null execution counter and none of the listed
    metadata fields.  On the cell of the second scenario, with
    [remove_all_output_tags = ["clear"]], [preprocess_cell] raises
    [AttributeError] for the attribute [output_remove_tags] and
    [preprocess] raises it for [cell_remove_tags]; the cell keeps its
    output, its counter and its ["collapsed"] field.  When the instance is
    given the attributes, a cell whose tag is stored in its metadata is
    returned as it was. *)
Theorem remove_all_output_tags_not_applied :
  (let cs := [collapsed_cell] in
   preprocess_cell (configured [] ["clear"] []) 0 ∅ 0 (store_of cs)
   = (store_of cs, inl (AttributeError "output_remove_tags")) ∧
   preprocess (configured [] ["clear"] []) (notebook_of cs) ∅ (store_of cs)
   = (store_of cs, inl (AttributeError "cell_remove_tags"))) ∧
  (let cs := [nbformat_cell ["clear"] [plain_output]] in
   (preprocess (patched [] ["clear"] []) (notebook_of cs) ∅ (store_of cs)).2
   = inr (notebook_of cs, ∅) ∧
   (preprocess (patched [] ["clear"] []) (notebook_of cs) ∅ (store_of cs)).1 0
   = nbformat_cell ["clear"] [plain_output]).
Proof. cbv zeta. split_and!; vm_compute; reflexivity. Qed.

(** C3 (output removal by [remove_single_output_tags]).  The claim is that
    an output carrying a tag of the configured single-output set is absent
    from its surviving cell.  On the cell of the third scenario, with
    [remove_single_output_tags = ["hide"]], [preprocess] raises
    [AttributeError] for the attribute [cell_remove_tags].  When the
    instance is given the two attributes, both empty as configured, the
    test at the head of [preprocess] returns the notebook as it is: the
    tagged output is still the first output of the cell. *)
Theorem remove_single_output_tags_not_applied :
  let cs := [code_cell [] [hidden_output; plain_output]] in
  preprocess (configured [] [] ["hide"]) (notebook_of cs) ∅ (store_of cs)
  = (store_of cs, inl (AttributeError "cell_remove_tags")) ∧
  preprocess (patched [] [] ["hide"]) (notebook_of cs) ∅ (store_of cs)
  = (store_of cs, inr (notebook_of cs, ∅)) ∧
  outputs (store_of cs 0) = Some [hidden_output; plain_output].
Proof. cbv zeta. split_and!; vm_compute; reflexivity. Qed.

(** C4 (identity under the empty configuration).  The claim is that
    [preprocess] returns its input when the three tag sets are empty.  On
    an instance whose three traits are empty, [preprocess] raises
    [AttributeError] for the attribute [cell_remove_tags], on every
    notebook. *)
Theorem default_configuration_raises (nb : Notebook) (r : Resources)
    (h : heap) :
  preprocess (configured [] [] []) nb r h
  = (h, inl (AttributeError "cell_remove_tags")).
Proof. reflexivity. Qed.

(** C5 (the looked-up names are not the declared ones).  The tag sets that
    [preprocess], [check_cell_conditions] and [preprocess_cell] look up are
    the attributes [cell_remove_tags] and [output_remove_tags].  On an
    instance that has no attribute of those names, every call of
    [preprocess] raises [AttributeError] and leaves notebook and store as
    they were, and so do the two methods that read them.  On every
    instance, what is configured under the declared traits
    [remove_cell_tags] and [remove_all_output_tags] has no effect on
    [preprocess]. *)
Theorem misnamed_tag_sets_raise self nb resources h :
  other_attributes self !! "cell_remove_tags" = None →
  other_attributes self !! "output_remove_tags" = None →
  preprocess self nb resources h
    = (h, inl (AttributeError "cell_remove_tags")) ∧
  (∀ c i, check_cell_conditions self c resources i
          = inl (AttributeError "cell_remove_tags")) ∧
  (∀ cell i, preprocess_cell self cell resources i h
             = (h, inl (AttributeError "output_remove_tags"))) ∧
  (∀ self' rc ra nb' resources' h',
     preprocess (with_declared rc ra self') nb' resources' h'
     = preprocess self' nb' resources' h').
Proof.
  intros Hcell Hout. split_and!.
  - unfold preprocess, patterns_empty.
    rewrite getattr_cell_remove_tags, Hcell. reflexivity.
  - intros c i. unfold check_cell_conditions.
    rewrite getattr_cell_remove_tags, Hcell. reflexivity.
  - intros cell i. unfold preprocess_cell, has_output_remove_tag.
    rewrite getattr_output_remove_tags, Hout. reflexivity.
  - reflexivity.
Qed.

Lemma misnamed_tag_sets_raise_witness :
  let cs := [code_cell ["remove"] [plain_output]] in
  let self := configured ["remove"] ["clear"] ["hide"] in
  other_attributes self !! "cell_remove_tags" = None ∧
  other_attributes self !! "output_remove_tags" = None ∧
  preprocess self (notebook_of cs) ∅ (store_of cs)
    = (store_of cs, inl (AttributeError "cell_remove_tags")).
Proof.
  cbv zeta. split_and!; [reflexivity..|].
  exact (proj1 (misnamed_tag_sets_raise
                  (configured ["remove"] ["clear"] ["hide"])
                  _ _ _ eq_refl eq_refl)).
Defined.

(** C8 (frame).  Whatever [preprocess] does, returning or raising: the
    cells of the returned notebook are cells of the input in their input
    order; each cell object keeps its type, source and tags, and either
    keeps metadata and execution counter with its outputs thinned out
    (the outputs left are outputs it had, unchanged and in their order),
    or, the clearing test of [preprocess_cell] holding for it, has no
    outputs, a null counter and its metadata without the listed fields;
    cells outside the notebook, the notebook's other fields and the
    resources are as before. *)
Theorem filter_frame self nb resources h :
  (∀ l, cell_frame self (h l) ((preprocess self nb resources h).1 l)) ∧
  (∀ l, l ∉ cells nb → (preprocess self nb resources h).1 l = h l) ∧
  (∀ nb' resources',
     (preprocess self nb resources h).2 = inr (nb', resources') →
     cells nb' `sublist_of` cells nb ∧ nb_metadata nb' = nb_metadata nb ∧
     resources' = resources).
Proof. apply preprocess_frame. Qed.

Lemma filter_frame_witness :
  let self := patched ["remove"] ["clear"] ["hide"] in
  let after := preprocess self (notebook_of mixed_cells) ∅
                 (store_of mixed_cells) in
  after.2 = inr (mkNotebook [1; 2] ∅, ∅) ∧
  [1; 2] `sublist_of` cells (notebook_of mixed_cells) ∧
  after.1 0 = store_of mixed_cells 0 ∧
  after.1 1 = cleared ["collapsed"; "scrolled"] collapsed_cell ∧
  after.1 2 = code_cell [] [plain_output] ∧
  (∀ l, cell_frame self (store_of mixed_cells l) (after.1 l)).
Proof.
  cbv zeta.
  pose proof (filter_frame (patched ["remove"] ["clear"] ["hide"])
                (notebook_of mixed_cells) ∅ (store_of mixed_cells))
    as (Hframe & _ & Hcells).
  assert ((preprocess (patched ["remove"] ["clear"] ["hide"])
             (notebook_of mixed_cells) ∅ (store_of mixed_cells)).2
          = inr (mkNotebook [1; 2] ∅, ∅)) as Hret
    by (vm_compute; reflexivity).
  split_and!.
  - exact Hret.
  - exact (proj1 (Hcells _ _ Hret)).
  - vm_compute; reflexivity.
  - vm_compute; reflexivity.
  - vm_compute; reflexivity.
  - exact Hframe.
Defined.

(** C9 (the short-circuit test).  The test at the head of [preprocess]
    looks up [cell_remove_tags] and [output_remove_tags] only.  When both
    are empty and [remove_single_output_tags] is not, [preprocess] returns
    notebook, resources and store as they were: no output is filtered.
    The outcome of the test is the same whatever
    [remove_single_output_tags] holds. *)
Theorem short_circuit_skips_single_output_filter self nb resources h :
  other_attributes self !! "cell_remove_tags" = Some [] →
  other_attributes self !! "output_remove_tags" = Some [] →
  remove_single_output_tags self ≠ [] →
  preprocess self nb resources h = (h, inr (nb, resources)) ∧
  (∀ rs, patterns_empty (with_single rs self) = patterns_empty self).
Proof.
  intros Hcell Hout _. split; [|reflexivity].
  apply preprocess_skipped. unfold patterns_empty.
  rewrite getattr_cell_remove_tags, getattr_output_remove_tags, Hcell, Hout.
  reflexivity.
Qed.

Lemma short_circuit_skips_single_output_filter_witness :
  let cs := [code_cell [] [hidden_output; plain_output]] in
  let self := patched [] [] ["hide"] in
  other_attributes self !! "cell_remove_tags" = Some [] ∧
  other_attributes self !! "output_remove_tags" = Some [] ∧
  remove_single_output_tags self ≠ [] ∧
  preprocess self (notebook_of cs) ∅ (store_of cs)
    = (store_of cs, inr (notebook_of cs, ∅)).
Proof.
  cbv zeta. split_and!; [reflexivity..|discriminate|].
  refine (proj1 (short_circuit_skips_single_output_filter
                   (patched [] [] ["hide"]) _ _ _ eq_refl eq_refl _)).
  discriminate.
Defined.

(** C6 (no error in normal operation).  The claim is that [preprocess]
    raises no error.  With the three traits configured, on a notebook of
    one untagged code cell, it raises [AttributeError] for the attribute
    [cell_remove_tags].  When the instance is given the attributes, it
    raises for a markdown cell, which has no ['outputs'] key, and for a
    stream output, which has no ['metadata'] key. *)
Theorem normal_operation_raises :
  (let cs := [code_cell [] [plain_output]] in
   preprocess (configured ["remove"] ["clear"] ["hide"]) (notebook_of cs) ∅
     (store_of cs)
   = (store_of cs, inl (AttributeError "cell_remove_tags"))) ∧
  (let cs := [markdown_cell] in
   preprocess (patched ["remove"] [] []) (notebook_of cs) ∅ (store_of cs)
   = (store_of cs, inl (AttributeError "outputs"))) ∧
  (let cs := [code_cell [] [stream_output]] in
   preprocess (patched ["remove"] [] ["hide"]) (notebook_of cs) ∅
     (store_of cs)
   = (store_of cs, inl (AttributeError "metadata"))).
Proof. cbv zeta. split_and!; vm_compute; reflexivity. Qed.

(** C7 (cell removal before output processing).  The claim is that a cell
    matching the cell-removal set is removed from the document, its
    outputs never processed.  With [remove_cell_tags = ["remove"]] and
    [remove_all_output_tags = ["remove"]], on a notebook whose first cell
    is tagged ["remove"], [preprocess] raises [AttributeError] for the
    attribute [cell_remove_tags]: no notebook without that cell is
    produced.  When the instance is given the attributes, a markdown cell
    further down raises as well, before the new cell list is assigned. *)
Theorem removal_precedence_not_reached :
  (let cs := [code_cell ["remove"] [plain_output];
              code_cell [] [plain_output]] in
   preprocess (configured ["remove"] ["remove"] []) (notebook_of cs) ∅
     (store_of cs)
   = (store_of cs, inl (AttributeError "cell_remove_tags"))) ∧
  (let cs := [code_cell ["remove"] [plain_output]; markdown_cell] in
   preprocess (patched ["remove"] ["remove"] []) (notebook_of cs) ∅
     (store_of cs)
   = (store_of cs, inl (AttributeError "outputs"))).
Proof. cbv zeta. split_and!; vm_compute; reflexivity. Qed.

(** C10 (where the tags are read).  The two cell-level tests read the
    cell's own ['tags'] key: they find a tag listed there, and the cell's
    metadata has no part in them.  The output-level test reads the
    ['tags'] entry of the output's metadata.  So a cell of the notebook
    that has no ['tags'] key of its own, whatever tags its metadata lists,
    is neither cleared (metadata and execution counter stay) nor removed
    (it is a cell of every notebook that [preprocess] returns). *)
Theorem cell_tests_ignore_metadata_tags self nb resources h l :
  l ∈ cells nb →
  tags (h l) = None →
  metadata ((preprocess self nb resources h).1 l) = metadata (h l) ∧
  execution_count ((preprocess self nb resources h).1 l)
    = execution_count (h l) ∧
  (∀ nb' resources',
     (preprocess self nb resources h).2 = inr (nb', resources') →
     l ∈ cells nb') ∧
  (∀ c md i,
     check_cell_conditions self (set_metadata md c) resources i
       = check_cell_conditions self c resources i ∧
     has_output_remove_tag self (set_metadata md c)
       = has_output_remove_tag self c) ∧
  (∀ c i ts,
     other_attributes self !! "cell_remove_tags" = Some ts →
     carries (tags c) ts →
     check_cell_conditions self c resources i = inr false) ∧
  (∀ c ts,
     other_attributes self !! "output_remove_tags" = Some ts →
     carries (tags c) ts →
     has_output_remove_tag self c = inr true) ∧
  (∀ o md ci oi,
     output_metadata o = Some md →
     carries (md !! "tags") (remove_single_output_tags self) →
     check_output_conditions self o resources ci oi = inr false).
Proof.
  intros Hin Htags.
  destruct (preprocess_frame self nb resources h) as (Hfr & _ & _).
  destruct (Hfr l) as (_ & _ & _ & [(Hmd & Hec & _)|(Hclear & _)]);
    [|by apply no_tags_not_cleared in Hclear].
  split_and!; [done..| | | | |].
  - unfold preprocess.
    cbv beta iota delta [mbind M_bind lift mret M_ret].
    destruct (patterns_empty self) as [e|[|]]; [done| |].
    + by intros nb' r' [= <- <-].
    + destruct (filter_cells self (cells nb) resources 0 h)
        as [h1 [e|kept]] eqn:Hf; [done|].
      intros nb' r' [= <- <-]. cbn.
      apply (filter_cells_keeps self (cells nb) resources 0 h);
        [by rewrite Hf|done|by apply no_tags_not_rejected].
  - intros c md i. split; reflexivity.
  - intros c i ts. apply check_cell_conditions_carries.
  - intros c ts Hts Hc. pose proof Hc as (t & _ & tl & Hl & _).
    apply (has_output_remove_tag_carries self c tl); [by rewrite Hl|].
    by exists ts.
  - intros o md ci oi Ho Hc. pose proof Hc as (t & _ & tl & Hl & _).
    rewrite (check_output_conditions_defined self o resources ci oi md tl);
      [|done|by rewrite Hl].
    apply (any_found_carries (md !! "tags") tl) in Hc as ->; [done|].
    by rewrite Hl.
Qed.

Lemma cell_tests_ignore_metadata_tags_witness :
  let cs := [nbformat_cell ["remove"] [plain_output]] in
  let self := patched ["remove"] ["remove"] [] in
  let after := preprocess self (notebook_of cs) ∅ (store_of cs) in
  0 ∈ cells (notebook_of cs) ∧
  tags (store_of cs 0) = None ∧
  metadata (store_of cs 0) = Some (tagged ["remove"]) ∧
  metadata (after.1 0) = metadata (store_of cs 0) ∧
  execution_count (after.1 0) = execution_count (store_of cs 0) ∧
  after.2 = inr (notebook_of cs, ∅).
Proof.
  cbv zeta.
  assert (0 ∈ cells (notebook_of [nbformat_cell ["remove"] [plain_output]]))
    as Hin by apply list_elem_of_here.
  destruct (cell_tests_ignore_metadata_tags
              (patched ["remove"] ["remove"] [])
              (notebook_of [nbformat_cell ["remove"] [plain_output]]) ∅
              (store_of [nbformat_cell ["remove"] [plain_output]]) 0
              Hin eq_refl) as (Hmd & Hec & _).
  split_and!; [exact Hin|reflexivity|reflexivity|exact Hmd|exact Hec|].
  vm_compute. reflexivity.
Defined.

(** * Further properties of the methods *)

(** ** The tag tests, in boolean form *)

Lemma carriesb_carries v ts : carriesb v ts = true ↔ carries v ts.
Proof.
  unfold carries, has_tag. destruct v as [[| | | |l|]|]; cbn [carriesb];
    try (split; [done|by intros (t & _ & l' & [=] & _)]).
  rewrite existsb_exists. split.
  - intros (t & Hin & Hex). exists t. split; [by apply list_elem_of_In|].
    exists l. split; [done|]. by apply existsb_json_eq_str.
  - intros (t & Hin & l' & [= <-] & Hl). exists t.
    split; [by apply list_elem_of_In|]. by apply existsb_json_eq_str.
Qed.

Lemma not_carriesb_carries v ts : carriesb v ts = false ↔ ¬ carries v ts.
Proof.
  rewrite <- carriesb_carries. by destruct (carriesb v ts).
Qed.

Lemma any_fmap {A} (f : A → bool) (ts : list A) :
  any (f <$> ts) = existsb f ts.
Proof.
  unfold any. induction ts as [|t ts IH]; [done|].
  cbn. by rewrite <- IH.
Qed.

Lemma any_found_carriesb v l ts :
  tag_list v = Some l →
  any ((λ tag, existsb (json_eq_str tag) l) <$> ts) = carriesb v ts.
Proof.
  intros Hv. rewrite any_fmap.
  destruct v as [[]|]; try discriminate Hv; injection Hv as <-; [done|].
  cbn. induction ts as [|t ts IH]; [done|]. by cbn.
Qed.

Lemma check_cell_conditions_carriesb self c r i ts l :
  other_attributes self !! "cell_remove_tags" = Some ts →
  tag_list (tags c) = Some l →
  check_cell_conditions self c r i = inr (negb (carriesb (tags c) ts)).
Proof.
  intros Hts Hl.
  rewrite (check_cell_conditions_defined self c r i ts l);
    [|by rewrite getattr_cell_remove_tags, Hts|done].
  by rewrite (any_found_carriesb (tags c)).
Qed.

Lemma has_output_remove_tag_carriesb self c ts l :
  other_attributes self !! "output_remove_tags" = Some ts →
  tag_list (tags c) = Some l →
  has_output_remove_tag self c = inr (carriesb (tags c) ts).
Proof.
  intros Hts Hl.
  rewrite (has_output_remove_tag_defined self c ts l);
    [|by rewrite getattr_output_remove_tags, Hts|done].
  by rewrite (any_found_carriesb (tags c)).
Qed.

Lemma check_output_conditions_carriesb self o r ci oi :
  output_shaped o →
  check_output_conditions self o r ci oi
  = inr (negb (carriesb (output_tags o) (remove_single_output_tags self))).
Proof.
  intros (md & l & Hmd & Hl).
  rewrite (check_output_conditions_defined self o r ci oi md l) by done.
  unfold output_tags. rewrite Hmd. cbn.
  by rewrite (any_found_carriesb (md !! "tags")).
Qed.

Lemma filter_outputs_shaped self outs r ci oi :
  Forall output_shaped outs →
  filter_outputs self outs r ci oi
  = inr (untagged_outputs (remove_single_output_tags self) outs).
Proof.
  intros Hall. revert oi. induction Hall as [|o outs Ho _ IH]; intros oi.
  - done.
  - rewrite filter_outputs_cons, check_output_conditions_carriesb by done.
    rewrite (IH (S oi)). unfold untagged_outputs.
    destruct (carriesb (output_tags o) (remove_single_output_tags self))
      eqn:Hc; cbn [negb].
    + by rewrite filter_cons_False by (rewrite Hc; discriminate).
    + by rewrite filter_cons_True by done.
Qed.

(** ** Shaped cells *)

Lemma set_outputs_same outs c : outputs c = Some outs → set_outputs outs c = c.
Proof. destruct c. cbn. by intros ->. Qed.

Lemma processed_tags ra rs fields c : tags (processed ra rs fields c) = tags c.
Proof.
  unfold processed. destruct (carriesb (tags c) ra); [done|].
  by destruct (outputs c).
Qed.

Lemma untagged_outputs_idemp rs outs :
  untagged_outputs rs (untagged_outputs rs outs) = untagged_outputs rs outs.
Proof.
  unfold untagged_outputs. rewrite list_filter_filter.
  apply list_filter_iff. intros o. split; [by intros [? _]|done].
Qed.

Lemma processed_idemp ra rs fields c :
  processed ra rs fields (processed ra rs fields c) = processed ra rs fields c.
Proof.
  unfold processed at 2. destruct (carriesb (tags c) ra) eqn:Hc.
  - unfold processed. cbn [cleared tags]. rewrite Hc.
    unfold cleared. cbn. f_equal.
    destruct (metadata c) as [md|]; [|done].
    change (Some (strip fields (strip fields md)) = Some (strip fields md)).
    by rewrite strip_idemp.
  - destruct (outputs c) as [outs|] eqn:Houts.
    + unfold processed. cbn [set_outputs tags outputs]. rewrite Hc.
      unfold set_outputs.
      cbn [cell_type source tags metadata outputs execution_count].
      by rewrite Houts, untagged_outputs_idemp.
    + unfold processed. by rewrite Hc, Houts.
Qed.

Lemma cell_shaped_processed ra rs fields c :
  cell_shaped c → cell_shaped (processed ra rs fields c).
Proof.
  intros (Htags & outs & Houts & Hall). split.
  - by rewrite processed_tags.
  - unfold processed. destruct (carriesb (tags c) ra).
    + exists []. split; [done|constructor].
    + rewrite Houts. exists (untagged_outputs rs outs). split; [done|].
      unfold untagged_outputs. apply Forall_forall.
      intros o [_ Ho]%list_elem_of_filter.
      by apply (proj1 (Forall_forall _ _) Hall).
Qed.

(** A shaped cell is always processed: no lookup on it can fail. *)
Lemma preprocess_cell_shaped self cell r i h ra :
  other_attributes self !! "output_remove_tags" = Some ra →
  cell_shaped (h cell) →
  (preprocess_cell self cell r i h).2 = inr (cell, r) ∧
  (∀ l, l ≠ cell → (preprocess_cell self cell r i h).1 l = h l) ∧
  (preprocess_cell self cell r i h).1 cell
  = processed ra (remove_single_output_tags self)
      (remove_metadata_fields self) (h cell).
Proof.
  intros Hra ([tl Htl] & outs & Houts & Hall).
  pose proof (preprocess_cell_outcome self cell r i h) as H.
  rewrite (has_output_remove_tag_carriesb self (h cell) ra tl) in H by done.
  unfold processed.
  destruct (carriesb (tags (h cell)) ra); [done|].
  rewrite Houts in *. destruct outs as [|o outs].
  - rewrite H. cbn. split_and!; [done..|].
    by rewrite set_outputs_same.
  - by rewrite filter_outputs_shaped in H.
Qed.

Lemma patterns_empty_defined self rc ra :
  other_attributes self !! "cell_remove_tags" = Some rc →
  other_attributes self !! "output_remove_tags" = Some ra →
  patterns_empty self = inr (negb (truthy rc) && negb (truthy ra)).
Proof.
  intros Hrc Hra. unfold patterns_empty.
  rewrite getattr_cell_remove_tags, getattr_output_remove_tags, Hrc, Hra.
  by destruct rc.
Qed.

Lemma elem_of_cons_ne {A} (l cell : A) rest (Q : Prop) :
  l ≠ cell → (l ∈ rest ∧ Q) ↔ (l ∈ cell :: rest ∧ Q).
Proof.
  intros Hne. rewrite elem_of_cons. split.
  - intros [? ?]. split; [by right|done].
  - intros [[?|?] ?]; done.
Qed.

(** The pass over shaped cells returns the cells that carry none of the
    cell-removal tags, and leaves each of them processed. *)
Lemma filter_cells_shaped self cs r i h rc ra :
  other_attributes self !! "cell_remove_tags" = Some rc →
  other_attributes self !! "output_remove_tags" = Some ra →
  (∀ l, l ∈ cs → cell_shaped (h l)) →
  (filter_cells self cs r i h).2
  = inr (filter (λ l, carriesb (tags (h l)) rc = false) cs) ∧
  (∀ l, (filter_cells self cs r i h).1 l
        = if decide (l ∈ cs ∧ carriesb (tags (h l)) rc = false)
          then processed ra (remove_single_output_tags self)
                 (remove_metadata_fields self) (h l)
          else h l).
Proof.
  intros Hrc Hra. revert i h.
  induction cs as [|cell rest IH]; intros i h Hshaped.
  - cbn. split; [done|]. intros l.
    rewrite decide_False; [done|]. intros [Hin _]. by apply elem_of_nil in Hin.
  - rewrite filter_cells_cons.
    destruct (Hshaped cell) as ([tl Htl] & Houts); [apply list_elem_of_here|].
    rewrite (check_cell_conditions_carriesb self (h cell) r i rc tl) by done.
    destruct (carriesb (tags (h cell)) rc) eqn:Hc; cbn [negb].
    + (* the cell is dropped *)
      destruct (IH (S i) h) as (Hres & Hstore).
      { intros l Hl. apply Hshaped. by apply list_elem_of_further. }
      split.
      * rewrite Hres.
        by rewrite filter_cons_False by (rewrite Hc; discriminate).
      * intros l. rewrite Hstore.
        destruct (decide (l = cell)) as [->|Hne].
        -- rewrite !decide_False; [done| |]; intros [_ ?]; congruence.
        -- by apply decide_ext, elem_of_cons_ne.
    + (* the cell is kept and processed *)
      destruct (preprocess_cell_shaped self cell r i h ra)
        as (Hret & Hother & Hcell); [done|by apply Hshaped, list_elem_of_here|].
      destruct (preprocess_cell self cell r i h) as [h1 [e|x]];
        cbn [fst snd] in *; [done|]. injection Hret as ->.
      assert (∀ l, tags (h1 l) = tags (h l)) as Htags.
      { intros l. destruct (decide (l = cell)) as [->|Hne].
        - rewrite Hcell. apply processed_tags.
        - by rewrite Hother. }
      destruct (IH (S i) h1) as (Hres & Hstore).
      { intros l Hl. destruct (decide (l = cell)) as [->|Hne].
        - rewrite Hcell. apply cell_shaped_processed.
          apply Hshaped, list_elem_of_here.
        - rewrite Hother by done. by apply Hshaped, list_elem_of_further. }
      destruct (filter_cells self rest r (S i) h1) as [h2 [e|kept]];
        cbn [fst snd] in *; [done|]. injection Hres as ->.
      split.
      * cbn [fst]. rewrite filter_cons_True by done. do 2 f_equal.
        apply list_filter_iff. intros l. by rewrite Htags.
      * intros l. rewrite Hstore, Htags.
        destruct (decide (l = cell)) as [->|Hne].
        -- rewrite (decide_True (P := cell ∈ cell :: rest ∧ _))
             by (split; [apply list_elem_of_here|done]).
           rewrite Hcell. case_decide; [apply processed_idemp|done].
        -- rewrite Hother by done.
           by apply decide_ext, elem_of_cons_ne.
Qed.

(** ** [check_cell_conditions] and [check_output_conditions] *)

Lemma prefix_app p s : String.prefix p s = true ↔ ∃ b, s = p +:+ b.
Proof.
  revert s. induction p as [|c p IH]; intros s.
  - destruct s; cbn; (split; [by eexists|done]).
  - destruct s as [|d s]; cbn.
    + split; [done|by intros (b & [=])].
    + destruct (Ascii.ascii_dec c d) as [->|Hne].
      * rewrite IH. split; intros (b & Hb); exists b;
          [by rewrite Hb|by injection Hb].
      * split; [done|]. intros (b & [= ? _]). done.
Qed.

Lemma is_substring_occurs p s : is_substring p s = true ↔ occurs_in p s.
Proof.
  unfold occurs_in. induction s as [|c s IH]; cbn [is_substring].
  - rewrite prefix_app. split.
    + intros (b & Hb). by exists "", b.
    + intros ([|d a] & b & Hab); [by exists b|done].
  - rewrite orb_true_iff, IH, prefix_app. split.
    + intros [(b & Hb)|(a & b & Hab)].
      * by exists "", b.
      * exists (String c a), b. cbn. by rewrite Hab.
    + intros ([|d a] & b & Hab).
      * left. by exists b.
      * right. injection Hab as -> Hab. by exists a, b.
Qed.

Lemma mapM_py_in_str s ts :
  mapM (λ tag, py_in tag (JStr s)) ts
  = inr ((λ tag, is_substring tag s) <$> ts).
Proof.
  induction ts as [|t ts IH]; [done|].
  cbn [mapM]. cbn [mapM] in IH. rewrite IH. reflexivity.
Qed.

Lemma mapM_py_in_not_iterable v t ts :
  not_iterable v = true →
  mapM (λ tag, py_in tag v) (t :: ts)
  = inl (TypeError "argument is not iterable").
Proof. by destruct v. Qed.

(** X1.  With the attribute [cell_remove_tags] in place and a cell whose
    own tags entry is absent or a list, [check_cell_conditions] never
    raises and answers [False] exactly for the cells that carry one of the
    listed tags. *)
Theorem check_cell_conditions_decides self c r i ts l :
  other_attributes self !! "cell_remove_tags" = Some ts →
  tag_list (tags c) = Some l →
  (carries (tags c) ts → check_cell_conditions self c r i = inr false) ∧
  (¬ carries (tags c) ts → check_cell_conditions self c r i = inr true).
Proof.
  intros Hts Hl.
  rewrite (check_cell_conditions_carriesb self c r i ts l) by done.
  split.
  - intros Hc%carriesb_carries. by rewrite Hc.
  - intros Hc%not_carriesb_carries. by rewrite Hc.
Qed.

Lemma check_cell_conditions_decides_witness :
  let self := patched ["draft"; "remove"] [] [] in
  let c := code_cell ["keep"; "remove"] [plain_output] in
  other_attributes self !! "cell_remove_tags" = Some ["draft"; "remove"] ∧
  tag_list (tags c) = Some [JStr "keep"; JStr "remove"] ∧
  check_cell_conditions self c ∅ 0 = inr false.
Proof.
  cbv zeta. split_and!; [reflexivity..|].
  refine (proj1 (check_cell_conditions_decides
                   (patched ["draft"; "remove"] [] [])
                   (code_cell ["keep"; "remove"] [plain_output]) ∅ 0
                   _ _ eq_refl eq_refl) _).
  apply carriesb_carries. reflexivity.
Defined.

(** X2.  When the cell's ['tags'] key holds a value that cannot be
    searched ([None], a boolean, a number), [check_cell_conditions] raises
    [TypeError] as soon as there is one tag to look for; with no tag to
    look for the entry is never examined and the answer is [True]. *)
Theorem check_cell_conditions_not_iterable self c r i ts v :
  other_attributes self !! "cell_remove_tags" = Some ts →
  tags c = Some v →
  not_iterable v = true →
  check_cell_conditions self c r i
  = if truthy ts then inl (TypeError "argument is not iterable")
    else inr true.
Proof.
  intros Hts Hv Hni. unfold check_cell_conditions.
  rewrite getattr_cell_remove_tags, Hts, Hv. cbn [mbind res_bind default].
  destruct ts as [|t ts]; [done|].
  by rewrite mapM_py_in_not_iterable.
Qed.

Lemma check_cell_conditions_not_iterable_witness :
  let self := patched ["remove"] [] [] in
  let c := mkCell "code" "" (Some JNull) None (Some []) None in
  other_attributes self !! "cell_remove_tags" = Some ["remove"] ∧
  tags c = Some JNull ∧
  not_iterable JNull = true ∧
  check_cell_conditions self c ∅ 0
  = inl (TypeError "argument is not iterable").
Proof.
  cbv zeta. split_and!; [reflexivity..|].
  exact (check_cell_conditions_not_iterable (patched ["remove"] [] [])
           (mkCell "code" "" (Some JNull) None (Some []) None) ∅ 0
           ["remove"] JNull eq_refl eq_refl eq_refl).
Defined.

(** X3.  When the cell's ['tags'] key holds a string instead of a list,
    [in] is the substring test: [check_cell_conditions] answers [False]
    exactly when one of the listed tags occurs somewhere in that
    string. *)
Theorem check_cell_conditions_string_tags self c r i ts s :
  other_attributes self !! "cell_remove_tags" = Some ts →
  tags c = Some (JStr s) →
  ((∃ t, t ∈ ts ∧ occurs_in t s) →
   check_cell_conditions self c r i = inr false) ∧
  (¬ (∃ t, t ∈ ts ∧ occurs_in t s) →
   check_cell_conditions self c r i = inr true).
Proof.
  intros Hts Hs. unfold check_cell_conditions.
  rewrite getattr_cell_remove_tags, Hts, Hs.
  cbn [mbind res_bind].
  change (default (JArr []) (Some (JStr s))) with (JStr s).
  rewrite mapM_py_in_str.
  cbn [mbind res_bind mret res_ret].
  assert (any ((λ tag, is_substring tag s) <$> ts) = true
          ↔ ∃ t, t ∈ ts ∧ occurs_in t s) as Hany.
  { rewrite any_fmap_true. by setoid_rewrite is_substring_occurs. }
  destruct (any ((λ tag, is_substring tag s) <$> ts)).
  - split; [done|]. intros Hno. destruct Hno. by apply Hany.
  - split; [|done]. intros Hyes%Hany. done.
Qed.

Lemma check_cell_conditions_string_tags_witness :
  let self := patched ["remove"] [] [] in
  let c := mkCell "code" "" (Some (JStr "not-removed")) None (Some []) None in
  other_attributes self !! "cell_remove_tags" = Some ["remove"] ∧
  tags c = Some (JStr "not-removed") ∧
  check_cell_conditions self c ∅ 0 = inr false.
Proof.
  cbv zeta. split_and!; [reflexivity..|].
  refine (proj1 (check_cell_conditions_string_tags
                   (patched ["remove"] [] [])
                   (mkCell "code" "" (Some (JStr "not-removed")) None
                      (Some []) None) ∅ 0 _ _ eq_refl eq_refl) _).
  exists "remove". split; [apply list_elem_of_here|].
  by exists "not-", "d".
Defined.

(** X4.  On an output that has a metadata mapping whose tags entry is
    absent or a list, [check_output_conditions] never raises and answers
    [False] exactly for the outputs that carry one of the tags of
    [remove_single_output_tags]. *)
Theorem check_output_conditions_decides self o r ci oi :
  output_shaped o →
  (carries (output_tags o) (remove_single_output_tags self) →
   check_output_conditions self o r ci oi = inr false) ∧
  (¬ carries (output_tags o) (remove_single_output_tags self) →
   check_output_conditions self o r ci oi = inr true).
Proof.
  intros Ho. rewrite check_output_conditions_carriesb by done. split.
  - intros Hc%carriesb_carries. by rewrite Hc.
  - intros Hc%not_carriesb_carries. by rewrite Hc.
Qed.

Lemma check_output_conditions_decides_witness :
  let self := configured [] [] ["hide"] in
  output_shaped hidden_output ∧ output_shaped plain_output ∧
  check_output_conditions self hidden_output ∅ 0 0 = inr false ∧
  check_output_conditions self plain_output ∅ 0 1 = inr true.
Proof.
  cbv zeta.
  assert (output_shaped hidden_output) as Hh
    by (by exists (tagged ["hide"]), [JStr "hide"]).
  assert (output_shaped plain_output) as Hp by (by exists (tagged []), []).
  split_and!; [exact Hh|exact Hp| |].
  - refine (proj1 (check_output_conditions_decides
                     (configured [] [] ["hide"]) hidden_output ∅ 0 0 Hh) _).
    apply carriesb_carries. reflexivity.
  - refine (proj2 (check_output_conditions_decides
                     (configured [] [] ["hide"]) plain_output ∅ 0 1 Hp) _).
    apply not_carriesb_carries. reflexivity.
Defined.

(** X5.  On an output without a ['metadata'] key, such as a stream
    output, [check_output_conditions] raises [AttributeError] as soon as
    [remove_single_output_tags] lists a tag; when it lists none, the
    output is not examined and the answer is [True]. *)
Theorem check_output_conditions_no_metadata self o r ci oi :
  output_metadata o = None →
  check_output_conditions self o r ci oi
  = if truthy (remove_single_output_tags self)
    then inl (AttributeError "metadata")
    else inr true.
Proof.
  intros Hmd. unfold check_output_conditions.
  rewrite getattr_remove_single_output_tags, Hmd.
  by destruct (remove_single_output_tags self).
Qed.

Lemma check_output_conditions_no_metadata_witness :
  output_metadata stream_output = None ∧
  check_output_conditions (configured [] [] ["hide"]) stream_output ∅ 0 0
  = inl (AttributeError "metadata") ∧
  check_output_conditions (configured ["remove"] [] []) stream_output ∅ 0 0
  = inr true.
Proof.
  split_and!; [reflexivity| |].
  - exact (check_output_conditions_no_metadata
             (configured [] [] ["hide"]) stream_output ∅ 0 0 eq_refl).
  - exact (check_output_conditions_no_metadata
             (configured ["remove"] [] []) stream_output ∅ 0 0 eq_refl).
Defined.

(** ** [preprocess_cell] *)

(** X6.  When the attribute [output_remove_tags] exists and the cell's own
    tags carry one of its tags, [preprocess_cell] returns its cell and
    never raises, whatever the cell holds: the cell ends with the outputs
    [[]] and the execution counter [None] (also a cell that had neither
    key), its metadata loses the fields of [remove_metadata_fields] and
    keeps every other entry, and no other cell is touched. *)
Theorem preprocess_cell_clears_tagged self cell r i h ra :
  other_attributes self !! "output_remove_tags" = Some ra →
  carries (tags (h cell)) ra →
  (preprocess_cell self cell r i h).2 = inr (cell, r) ∧
  (∀ l, l ≠ cell → (preprocess_cell self cell r i h).1 l = h l) ∧
  (preprocess_cell self cell r i h).1 cell
  = cleared (remove_metadata_fields self) (h cell) ∧
  (∀ md k,
     metadata (h cell) = Some md →
     metadata ((preprocess_cell self cell r i h).1 cell) ≫= (.!! k)
     = if decide (k ∈ remove_metadata_fields self) then None else md !! k).
Proof.
  intros Hra Hc. pose proof Hc as (t & _ & tl & Htl & _).
  pose proof (preprocess_cell_outcome self cell r i h) as H.
  rewrite (proj2 (has_output_remove_tag_carries self (h cell) tl
                    ltac:(by rewrite Htl)) (ex_intro _ ra (conj Hra Hc)))
    in H.
  destruct H as (Hret & Hother & Hcell). split_and!; [done..|].
  intros md k Hmd. rewrite Hcell. unfold cleared. cbn [metadata].
  rewrite Hmd. cbn. apply lookup_strip.
Qed.

Lemma preprocess_cell_clears_tagged_witness :
  let self := patched [] ["clear"] [] in
  let c := mkCell "markdown" "# Title" (Some (JArr [JStr "clear"]))
             (Some {[ "scrolled" := JBool true; "name" := JStr "intro" ]})
             None None in
  let after := preprocess_cell self 0 ∅ 0 (store_of [c]) in
  other_attributes self !! "output_remove_tags" = Some ["clear"] ∧
  carries (tags (store_of [c] 0)) ["clear"] ∧
  after.2 = inr (0, ∅) ∧
  outputs (after.1 0) = Some [] ∧
  execution_count (after.1 0) = Some JNull ∧
  metadata (after.1 0) ≫= (.!! "scrolled") = None ∧
  metadata (after.1 0) ≫= (.!! "name") = Some (JStr "intro").
Proof.
  cbv zeta.
  set (c := mkCell "markdown" "# Title" (Some (JArr [JStr "clear"]))
              (Some {[ "scrolled" := JBool true; "name" := JStr "intro" ]})
              None None).
  assert (carries (tags (store_of [c] 0)) ["clear"]) as Hc
    by (apply carriesb_carries; reflexivity).
  destruct (preprocess_cell_clears_tagged (patched [] ["clear"] []) 0 ∅ 0
              (store_of [c]) ["clear"] eq_refl Hc)
    as (Hret & _ & Hcell & Hmd).
  split_and!; [reflexivity|exact Hc|exact Hret| | | |].
  - by rewrite Hcell.
  - by rewrite Hcell.
  - exact (Hmd _ "scrolled" eq_refl).
  - exact (Hmd _ "name" eq_refl).
Defined.

(** X7.  [preprocess_cell] changes its cell at the end only: whenever it
    raises, the store is exactly what it was. *)
Theorem preprocess_cell_raise_leaves_store self cell r i h e :
  (preprocess_cell self cell r i h).2 = inl e →
  (preprocess_cell self cell r i h).1 = h.
Proof.
  pose proof (preprocess_cell_outcome self cell r i h) as H.
  destruct (has_output_remove_tag self (h cell)) as [e'|[|]].
  - by rewrite H.
  - destruct H as (Hret & _). by rewrite Hret.
  - destruct (outputs (h cell)) as [[|o outs]|].
    + by rewrite H.
    + destruct (filter_outputs self (o :: outs) r i 0) as [e'|kept].
      * by rewrite H.
      * destruct H as (Hret & _). by rewrite Hret.
    + by rewrite H.
Qed.

Lemma preprocess_cell_raise_leaves_store_witness :
  let self := patched [] ["clear"] ["hide"] in
  let h := store_of [code_cell [] [hidden_output; stream_output]] in
  (preprocess_cell self 0 ∅ 0 h).2 = inl (AttributeError "metadata") ∧
  (preprocess_cell self 0 ∅ 0 h).1 = h.
Proof.
  cbv zeta.
  assert ((preprocess_cell (patched [] ["clear"] ["hide"]) 0 ∅ 0
             (store_of [code_cell [] [hidden_output; stream_output]])).2
          = inl (AttributeError "metadata")) as Hraise
    by (vm_compute; reflexivity).
  split; [exact Hraise|].
  exact (preprocess_cell_raise_leaves_store _ _ _ _ _ _ Hraise).
Defined.

(** X8.  When the attribute [output_remove_tags] exists, the cell's own
    tags carry none of its tags, and every output of the cell has a
    metadata mapping with a well-shaped tags entry, [preprocess_cell]
    returns its cell with exactly the outputs that carry no tag of
    [remove_single_output_tags], in their order, and changes nothing
    else. *)
Theorem preprocess_cell_drops_tagged_outputs self cell r i h ra outs :
  other_attributes self !! "output_remove_tags" = Some ra →
  is_Some (tag_list (tags (h cell))) →
  ¬ carries (tags (h cell)) ra →
  outputs (h cell) = Some outs →
  Forall output_shaped outs →
  (preprocess_cell self cell r i h).2 = inr (cell, r) ∧
  (∀ l, l ≠ cell → (preprocess_cell self cell r i h).1 l = h l) ∧
  (preprocess_cell self cell r i h).1 cell
  = set_outputs (untagged_outputs (remove_single_output_tags self) outs)
      (h cell) ∧
  untagged_outputs (remove_single_output_tags self) outs `sublist_of` outs ∧
  (∀ o, o ∈ untagged_outputs (remove_single_output_tags self) outs ↔
        o ∈ outs ∧ ¬ carries (output_tags o) (remove_single_output_tags self)).
Proof.
  intros Hra Htl Hnc%not_carriesb_carries Houts Hall.
  destruct (preprocess_cell_shaped self cell r i h ra Hra)
    as (Hret & Hother & Hcell).
  { split; [done|]. by exists outs. }
  unfold processed in Hcell. rewrite Hnc, Houts in Hcell.
  split_and!; [done..|apply sublist_filter|].
  intros o. unfold untagged_outputs.
  by rewrite list_elem_of_filter, not_carriesb_carries, (comm and).
Qed.

Lemma preprocess_cell_drops_tagged_outputs_witness :
  let self := patched [] ["clear"] ["hide"] in
  let outs := [hidden_output; plain_output; hidden_output] in
  let h := store_of [code_cell ["keep"] outs] in
  other_attributes self !! "output_remove_tags" = Some ["clear"] ∧
  ¬ carries (tags (h 0)) ["clear"] ∧
  Forall output_shaped outs ∧
  (preprocess_cell self 0 ∅ 0 h).2 = inr (0, ∅) ∧
  (preprocess_cell self 0 ∅ 0 h).1 0 = code_cell ["keep"] [plain_output].
Proof.
  cbv zeta.
  assert (output_shaped hidden_output) as Hh
    by (by exists (tagged ["hide"]), [JStr "hide"]).
  assert (output_shaped plain_output) as Hp by (by exists (tagged []), []).
  assert (Forall output_shaped [hidden_output; plain_output; hidden_output])
    as Hall by (by repeat constructor).
  assert (¬ carries
            (tags (store_of [code_cell ["keep"] [hidden_output; plain_output;
                                                 hidden_output]] 0))
            ["clear"]) as Hnc
    by (apply not_carriesb_carries; reflexivity).
  destruct (preprocess_cell_drops_tagged_outputs
              (patched [] ["clear"] ["hide"]) 0 ∅ 0
              (store_of [code_cell ["keep"] [hidden_output; plain_output;
                                             hidden_output]])
              ["clear"] [hidden_output; plain_output; hidden_output]
              eq_refl ltac:(by eexists) Hnc eq_refl Hall)
    as (Hret & _ & Hcell & _).
  split_and!; [reflexivity|exact Hnc|exact Hall|exact Hret|].
  rewrite Hcell. vm_compute. reflexivity.
Defined.

(** ** [preprocess] *)

Lemma carriesb_nil v : carriesb v [] = false.
Proof. by destruct v as [[]|]. Qed.

Lemma filter_all {A} (P : A → Prop) `{∀ x, Decision (P x)} (l : list A) :
  (∀ x, x ∈ l → P x) → filter P l = l.
Proof.
  induction l as [|x l IH]; intros Hall; [done|].
  rewrite filter_cons_True by apply Hall, list_elem_of_here.
  f_equal. apply IH. intros y Hy. by apply Hall, list_elem_of_further.
Qed.

Lemma set_cells_same nb : set_cells (cells nb) nb = nb.
Proof. by destruct nb. Qed.

Lemma preprocess_not_skipped self nb r h :
  patterns_empty self = inr false →
  preprocess self nb r h
  = match filter_cells self (cells nb) r 0 h with
    | (h', inl e) => (h', inl e)
    | (h', inr kept) => (h', inr (set_cells kept nb, r))
    end.
Proof. intros Hskip. unfold preprocess. unfold_monad. by rewrite Hskip. Qed.

Lemma patterns_empty_true self :
  patterns_empty self = inr true →
  getattr self "cell_remove_tags" = inr [].
Proof.
  unfold patterns_empty.
  destruct (getattr self "cell_remove_tags") as [e|[|t ts]]; done.
Qed.

(** X9.  When the two looked-up attributes exist and every cell of the
    notebook is shaped (own tags absent or a list, a list of outputs that
    each have metadata with a well-shaped tags entry), [preprocess]
    returns, and the cells of the returned notebook are exactly the cells
    whose own tags carry no tag of [cell_remove_tags], in their order and
    with their multiplicity. *)
Theorem preprocess_returns_untagged_cells self nb r h rc ra :
  other_attributes self !! "cell_remove_tags" = Some rc →
  other_attributes self !! "output_remove_tags" = Some ra →
  (∀ l, l ∈ cells nb → cell_shaped (h l)) →
  (preprocess self nb r h).2
  = inr (set_cells
           (filter (λ l, carriesb (tags (h l)) rc = false) (cells nb)) nb,
         r) ∧
  (∀ l, l ∈ filter (λ l, carriesb (tags (h l)) rc = false) (cells nb) ↔
        l ∈ cells nb ∧ ¬ carries (tags (h l)) rc).
Proof.
  intros Hrc Hra Hshaped. split.
  - pose proof (patterns_empty_defined self rc ra Hrc Hra) as Hskip.
    destruct rc as [|t rc]; [destruct ra as [|t ra]|].
    + rewrite preprocess_skipped by done. cbn [snd].
      rewrite filter_all by (intros; apply carriesb_nil).
      by rewrite set_cells_same.
    + rewrite preprocess_not_skipped by done.
      destruct (filter_cells_shaped self (cells nb) r 0 h [] (t :: ra))
        as (Hres & _); [done..|].
      by destruct (filter_cells self (cells nb) r 0 h) as [h1 [e|kept]];
        cbn [snd] in *; simplify_eq.
    + rewrite preprocess_not_skipped by done.
      destruct (filter_cells_shaped self (cells nb) r 0 h (t :: rc) ra)
        as (Hres & _); [done..|].
      by destruct (filter_cells self (cells nb) r 0 h) as [h1 [e|kept]];
        cbn [snd] in *; simplify_eq.
  - intros l. by rewrite list_elem_of_filter, not_carriesb_carries, (comm and).
Qed.

Lemma preprocess_returns_untagged_cells_witness :
  let self := patched ["remove"] ["clear"] ["hide"] in
  let cs := [code_cell ["remove"] [plain_output];
             code_cell [] [hidden_output];
             code_cell ["remove"; "clear"] [];
             code_cell ["clear"] [plain_output]] in
  (∀ l, l ∈ cells (notebook_of cs) → cell_shaped (store_of cs l)) ∧
  (preprocess self (notebook_of cs) ∅ (store_of cs)).2
  = inr (mkNotebook [1; 3] ∅, ∅).
Proof.
  intros self cs.
  assert (output_shaped hidden_output) as Hh
    by (by exists (tagged ["hide"]), [JStr "hide"]).
  assert (output_shaped plain_output) as Hp by (by exists (tagged []), []).
  assert (∀ l, l ∈ cells (notebook_of cs) → cell_shaped (store_of cs l))
    as Hshaped.
  { intros l Hl. change (l ∈ [0; 1; 2; 3]) in Hl.
    repeat (apply elem_of_cons in Hl as [->|Hl]);
      [..|by apply elem_of_nil in Hl];
      (split; [by eexists|];
       eexists; split; [reflexivity|by repeat constructor]). }
  split; [exact Hshaped|].
  rewrite (proj1 (preprocess_returns_untagged_cells self (notebook_of cs) ∅
                    (store_of cs) ["remove"] ["clear"]
                    eq_refl eq_refl Hshaped)).
  vm_compute. reflexivity.
Defined.

(** X10.  Under the same conditions, and unless both looked-up attributes
    are empty, the store after [preprocess] holds every kept cell of the
    notebook processed (cleared when its own tags carry a tag of
    [output_remove_tags], else with the outputs tagged in
    [remove_single_output_tags] dropped) and every other cell as it
    was. *)
Theorem preprocess_processes_kept_cells self nb r h rc ra :
  other_attributes self !! "cell_remove_tags" = Some rc →
  other_attributes self !! "output_remove_tags" = Some ra →
  (∀ l, l ∈ cells nb → cell_shaped (h l)) →
  rc ≠ [] ∨ ra ≠ [] →
  ∀ l, (preprocess self nb r h).1 l
       = if decide (l ∈ cells nb ∧ carriesb (tags (h l)) rc = false)
         then processed ra (remove_single_output_tags self)
                (remove_metadata_fields self) (h l)
         else h l.
Proof.
  intros Hrc Hra Hshaped Hne l.
  rewrite preprocess_not_skipped.
  - destruct (filter_cells_shaped self (cells nb) r 0 h rc ra)
      as (_ & Hstore); [done..|].
    rewrite <- Hstore.
    by destruct (filter_cells self (cells nb) r 0 h) as [h1 [e|kept]].
  - rewrite (patterns_empty_defined self rc ra) by done.
    destruct rc, ra; try done. by destruct Hne.
Qed.

Lemma preprocess_processes_kept_cells_witness :
  let self := patched ["remove"] ["clear"] ["hide"] in
  let cs := [code_cell ["remove"] [hidden_output];
             code_cell [] [hidden_output; plain_output];
             code_cell ["clear"] [plain_output]] in
  let after := preprocess self (notebook_of cs) ∅ (store_of cs) in
  (∀ l, l ∈ cells (notebook_of cs) → cell_shaped (store_of cs l)) ∧
  after.1 0 = code_cell ["remove"] [hidden_output] ∧
  after.1 1 = code_cell [] [plain_output] ∧
  after.1 2 = cleared ["collapsed"; "scrolled"]
                (code_cell ["clear"] [plain_output]).
Proof.
  intros self cs after.
  assert (output_shaped hidden_output) as Hh
    by (by exists (tagged ["hide"]), [JStr "hide"]).
  assert (output_shaped plain_output) as Hp by (by exists (tagged []), []).
  assert (∀ l, l ∈ cells (notebook_of cs) → cell_shaped (store_of cs l))
    as Hshaped.
  { intros l Hl. change (l ∈ [0; 1; 2]) in Hl.
    repeat (apply elem_of_cons in Hl as [->|Hl]);
      [..|by apply elem_of_nil in Hl];
      (split; [by eexists|];
       eexists; split; [reflexivity|by repeat constructor]). }
  assert (other_attributes self !! "cell_remove_tags" = Some ["remove"])
    as Hrc by reflexivity.
  assert (other_attributes self !! "output_remove_tags" = Some ["clear"])
    as Hra by reflexivity.
  assert (["remove"] ≠ [] ∨ ["clear"] ≠ []) as Hne by (left; discriminate).
  pose proof (preprocess_processes_kept_cells self (notebook_of cs) ∅
                (store_of cs) ["remove"] ["clear"] Hrc Hra Hshaped Hne)
    as Hstore.
  unfold after.
  split_and!; [exact Hshaped|rewrite Hstore..]; vm_compute; reflexivity.
Defined.

Lemma preprocess_shaped self nb r h rc ra :
  other_attributes self !! "cell_remove_tags" = Some rc →
  other_attributes self !! "output_remove_tags" = Some ra →
  (∀ l, l ∈ cells nb → cell_shaped (h l)) →
  patterns_empty self = inr false →
  (preprocess self nb r h).2
  = inr (set_cells
           (filter (λ l, carriesb (tags (h l)) rc = false) (cells nb)) nb,
         r) ∧
  (∀ l, (preprocess self nb r h).1 l
        = if decide (l ∈ cells nb ∧ carriesb (tags (h l)) rc = false)
          then processed ra (remove_single_output_tags self)
                 (remove_metadata_fields self) (h l)
          else h l).
Proof.
  intros Hrc Hra Hshaped Hskip. rewrite preprocess_not_skipped by done.
  destruct (filter_cells_shaped self (cells nb) r 0 h rc ra)
    as (Hres & Hstore); [done..|].
  destruct (filter_cells self (cells nb) r 0 h) as [h1 [e|kept]];
    cbn [fst snd] in *; [done|].
  injection Hres as ->. by split.
Qed.

(** X11.  [preprocess] is idempotent on shaped notebooks: when the two
    looked-up attributes exist and every cell of the notebook is shaped,
    running [preprocess] again on the notebook and store that it returned
    returns the same notebook and leaves every cell as the first run left
    it. *)
Theorem preprocess_idempotent self nb r h rc ra nb1 r1 :
  other_attributes self !! "cell_remove_tags" = Some rc →
  other_attributes self !! "output_remove_tags" = Some ra →
  (∀ l, l ∈ cells nb → cell_shaped (h l)) →
  (preprocess self nb r h).2 = inr (nb1, r1) →
  (preprocess self nb1 r1 (preprocess self nb r h).1).2 = inr (nb1, r1) ∧
  (∀ l, (preprocess self nb1 r1 (preprocess self nb r h).1).1 l
        = (preprocess self nb r h).1 l).
Proof.
  intros Hrc Hra Hshaped Hrun.
  destruct (patterns_empty self) as [e|[|]] eqn:Hskip.
  - by rewrite (patterns_empty_defined self rc ra) in Hskip.
  - rewrite (preprocess_skipped self nb r h) in * by done.
    cbn [fst snd] in *. injection Hrun as <- <-.
    by rewrite preprocess_skipped.
  - destruct (preprocess_shaped self nb r h rc ra) as (Hres & Hstore);
      [done..|].
    rewrite Hres in Hrun. injection Hrun as <- <-.
    set (h1 := (preprocess self nb r h).1) in *.
    set (keep := λ l, carriesb (tags (h l)) rc = false).
    assert (∀ l, tags (h1 l) = tags (h l)) as Htags.
    { intros l. rewrite Hstore. case_decide; [apply processed_tags|done]. }
    destruct (preprocess_shaped self (set_cells (filter keep (cells nb)) nb)
                r h1 rc ra) as (Hres2 & Hstore2); [done..| |done|].
    { intros l [Hl Hin]%list_elem_of_filter. rewrite Hstore.
      rewrite decide_True by done. by apply cell_shaped_processed, Hshaped. }
    split.
    + rewrite Hres2. cbn [cells set_cells nb_metadata]. do 2 f_equal.
      unfold set_cells. f_equal. apply filter_all.
      intros l [Hl _]%list_elem_of_filter. by rewrite Htags.
    + intros l. rewrite Hstore2. case_decide as Hl; [|done].
      destruct Hl as [[Hl Hin]%list_elem_of_filter _].
      rewrite Hstore. rewrite decide_True by done. apply processed_idemp.
Qed.

Lemma preprocess_idempotent_witness :
  let self := patched ["remove"] ["clear"] ["hide"] in
  let after := preprocess self (notebook_of mixed_cells) ∅
                 (store_of mixed_cells) in
  (∀ l, l ∈ cells (notebook_of mixed_cells) →
        cell_shaped (store_of mixed_cells l)) ∧
  after.2 = inr (mkNotebook [1; 2] ∅, ∅) ∧
  (preprocess self (mkNotebook [1; 2] ∅) ∅ after.1).2
  = inr (mkNotebook [1; 2] ∅, ∅) ∧
  (∀ l, (preprocess self (mkNotebook [1; 2] ∅) ∅ after.1).1 l = after.1 l).
Proof.
  intros self after.
  assert (output_shaped hidden_output) as Hh
    by (by exists (tagged ["hide"]), [JStr "hide"]).
  assert (output_shaped plain_output) as Hp by (by exists (tagged []), []).
  assert (∀ l, l ∈ cells (notebook_of mixed_cells) →
               cell_shaped (store_of mixed_cells l)) as Hshaped.
  { intros l Hl. change (l ∈ [0; 1; 2]) in Hl.
    repeat (apply elem_of_cons in Hl as [->|Hl]);
      [..|by apply elem_of_nil in Hl];
      (split; [by eexists|];
       eexists; split; [reflexivity|by repeat constructor]). }
  assert (other_attributes self !! "cell_remove_tags" = Some ["remove"])
    as Hrc by reflexivity.
  assert (other_attributes self !! "output_remove_tags" = Some ["clear"])
    as Hra by reflexivity.
  assert (after.2 = inr (mkNotebook [1; 2] ∅, ∅)) as Hrun
    by (vm_compute; reflexivity).
  pose proof (preprocess_idempotent self (notebook_of mixed_cells) ∅
                (store_of mixed_cells) ["remove"] ["clear"]
                (mkNotebook [1; 2] ∅) ∅ Hrc Hra Hshaped Hrun)
    as (Hagain & Hstore).
  by split_and!.
Defined.

(** X12.  Cell removal comes first: a cell of the store that
    [check_cell_conditions] rejects is never passed to [preprocess_cell].
    Whether [preprocess] returns or raises, and whatever the other cells
    are, that cell object is left as it was, and it is not a cell of the
    notebook that [preprocess] returns. *)
Theorem rejected_cell_is_skipped self nb r h l :
  check_cell_conditions self (h l) r 0 = inr false →
  (preprocess self nb r h).1 l = h l ∧
  (∀ nb' r', (preprocess self nb r h).2 = inr (nb', r') → l ∉ cells nb').
Proof.
  intros Hl. destruct (patterns_empty self) as [e|[|]] eqn:Hskip.
  - unfold preprocess. unfold_monad. by rewrite Hskip.
  - apply patterns_empty_true in Hskip. unfold check_cell_conditions in Hl.
    by rewrite Hskip in Hl.
  - rewrite preprocess_not_skipped by done.
    destruct (dropped_cell_untouched self (cells nb) r 0 h l Hl)
      as (Hsame & Hnot).
    destruct (filter_cells self (cells nb) r 0 h) as [h1 [e|kept]];
      cbn [fst snd] in *; [done|].
    split; [done|]. intros nb' r' [= <- <-]. by apply Hnot.
Qed.

Lemma rejected_cell_is_skipped_witness :
  let self := patched ["remove"] ["remove"] ["hide"] in
  let cs := [code_cell ["remove"] [hidden_output; stream_output];
             markdown_cell] in
  let after := preprocess self (notebook_of cs) ∅ (store_of cs) in
  check_cell_conditions self (store_of cs 0) ∅ 0 = inr false ∧
  after.2 = inl (AttributeError "outputs") ∧
  after.1 0 = store_of cs 0.
Proof.
  intros self cs after.
  assert (check_cell_conditions self (store_of cs 0) ∅ 0 = inr false)
    as Hcheck by (vm_compute; reflexivity).
  split_and!; [exact Hcheck|vm_compute; reflexivity|].
  exact (proj1 (rejected_cell_is_skipped self (notebook_of cs) ∅
                  (store_of cs) 0 Hcheck)).
Defined.

Lemma filter_cells_all_rejected self cs r i h :
  (∀ l, l ∈ cs → check_cell_conditions self (h l) r 0 = inr false) →
  filter_cells self cs r i h = (h, inr []).
Proof.
  revert i. induction cs as [|cell rest IH]; intros i Hall; [done|].
  rewrite filter_cells_cons.
  change (check_cell_conditions self (h cell) r i)
    with (check_cell_conditions self (h cell) r 0).
  rewrite Hall by apply list_elem_of_here.
  apply IH. intros l Hl. by apply Hall, list_elem_of_further.
Qed.

(** X13.  When [cell_remove_tags] is a non-empty list and every cell of
    the notebook carries one of its tags, [preprocess] returns the
    notebook with no cells and touches nothing in the store, whether or
    not the attribute [output_remove_tags] exists and whatever the cells
    hold: the [or] of the test does not look further, and no cell is
    processed.  An empty notebook is the first case of this. *)
Theorem preprocess_all_cells_removed self nb r h rc :
  other_attributes self !! "cell_remove_tags" = Some rc →
  rc ≠ [] →
  (∀ l, l ∈ cells nb → carries (tags (h l)) rc) →
  preprocess self nb r h = (h, inr (set_cells [] nb, r)).
Proof.
  intros Hrc Hne Hall. rewrite preprocess_not_skipped.
  - rewrite filter_cells_all_rejected; [done|].
    intros l Hl. by apply (check_cell_conditions_carries self _ r 0 rc), Hall.
  - unfold patterns_empty. rewrite getattr_cell_remove_tags, Hrc.
    by destruct rc.
Qed.

Lemma preprocess_all_cells_removed_witness :
  let self := half_patched ["remove"] in
  let cs := [code_cell ["remove"] [stream_output];
             mkCell "markdown" "# Draft" (Some (JArr [JStr "remove"]))
                    None None None] in
  other_attributes self !! "cell_remove_tags" = Some ["remove"] ∧
  other_attributes self !! "output_remove_tags" = None ∧
  (∀ l, l ∈ cells (notebook_of cs) →
        carries (tags (store_of cs l)) ["remove"]) ∧
  preprocess self (notebook_of cs) ∅ (store_of cs)
  = (store_of cs, inr (mkNotebook [] ∅, ∅)).
Proof.
  intros self cs.
  assert (other_attributes self !! "cell_remove_tags" = Some ["remove"])
    as Hrc by reflexivity.
  assert (["remove"] ≠ ([] : list string)) as Hne by discriminate.
  assert (∀ l, l ∈ cells (notebook_of cs) →
               carries (tags (store_of cs l)) ["remove"]) as Hall.
  { intros l Hl. change (l ∈ [0; 1]) in Hl.
    repeat (apply elem_of_cons in Hl as [->|Hl]);
      [..|by apply elem_of_nil in Hl];
      apply carriesb_carries; reflexivity. }
  split_and!; [exact Hrc|reflexivity|exact Hall|].
  exact (preprocess_all_cells_removed self (notebook_of cs) ∅ (store_of cs)
           ["remove"] Hrc Hne Hall).
Defined.
